(** * College appointment system: the booking coordinator

    A shallow embedding of the Express routes of the repository
    ([routes/availability.js] and [routes/appointments.js]) over a model of
    the three Mongoose collections, and the properties of the specification
    checked against it.

    Layout:
    - [Regex]: the small regular-expression fragment used by the
      [startTime]/[endTime] validators;
    - the documents ([User], [Availability], [Appointment]) and the
      database [Db];
    - [Op]/[Prog]: a handler is a tree of awaited database operations, so
      that the same handler text has a sequential meaning ([run]) and an
      interleaved one ([interleave]);
    - the route handlers;
    - the theorems. *)

From Stdlib Require Import ZArith NArith Ascii String Bool Lia.
From stdpp Require Import gmap strings list fin_maps sorting.

Local Open Scope string_scope.

(** Mongo [ObjectId]s are opaque keys. *)
Abbreviation ObjectId := nat.

(* ===================================================================== *)
(** ** Regular expressions of the validators *)
(* ===================================================================== *)

Module Regex.

(** The fragment of JavaScript regular expressions the routes use:
    a literal character, a character range [[lo-hi]], concatenation,
    alternation [r1|r2] and the optional [r?]. *)
Inductive regex : Type :=
| Chr (c : ascii)
| Range (lo hi : ascii)
| Cat (r1 r2 : regex)
| Alt (r1 r2 : regex)
| Opt (r : regex).

Definition in_range (lo hi c : ascii) : bool :=
  (N_of_ascii lo <=? N_of_ascii c)%N && (N_of_ascii c <=? N_of_ascii hi)%N.

(** Backtracking matcher: every suffix that can remain after [r] has
    consumed a prefix of [s], in the order a backtracking engine tries
    them (left alternative first, [r?] greedy). *)
Fixpoint residuals (r : regex) (s : string) : list string :=
  match r with
  | Chr c =>
      match s with
      | String a s' => if Ascii.eqb a c then [s'] else []
      | EmptyString => []
      end
  | Range lo hi =>
      match s with
      | String a s' => if in_range lo hi a then [s'] else []
      | EmptyString => []
      end
  | Cat r1 r2 => flat_map (residuals r2) (residuals r1 s)
  | Alt r1 r2 => residuals r1 s ++ residuals r2 s
  | Opt r1 => residuals r1 s ++ [s]
  end.

Definition is_empty (s : string) : bool :=
  match s with EmptyString => true | String _ _ => false end.

(** [/^r$/.test(s)]: without the [m] flag, [^] and [$] anchor the match
    at both ends of the input. *)
Definition test (r : regex) (s : string) : bool :=
  existsb is_empty (residuals r s).

End Regex.

(* ===================================================================== *)
(** ** Times of day *)
(* ===================================================================== *)

(** [/^([0-1]?[0-9]|2[0-3]):[0-5][0-9]$/], the pattern of both time
    validators of [router.post('/')]. *)
Definition timePattern : Regex.regex :=
  Regex.Cat
    (Regex.Alt
       (Regex.Cat (Regex.Opt (Regex.Range "0" "1")) (Regex.Range "0" "9"))
       (Regex.Cat (Regex.Chr "2") (Regex.Range "0" "3")))
    (Regex.Cat (Regex.Chr ":")
       (Regex.Cat (Regex.Range "0" "5") (Regex.Range "0" "9"))).

Definition digitValue (c : ascii) : option N :=
  if Regex.in_range "0" "9" c then Some (N_of_ascii c - 48)%N else None.

(** The time of day a clock string denotes, in minutes after midnight:
    one or two hour digits (hour at most 23), a colon, two minute digits
    (minute at most 59). This is the value the specification compares
    times by. *)
Definition timeOfDay (s : string) : option N :=
  match s with
  | String h (String c (String m1 (String m2 EmptyString))) =>
      match digitValue h, digitValue m1, digitValue m2 with
      | Some h, Some m1, Some m2 =>
          if Ascii.eqb c ":" && (m1 <=? 5)%N
          then Some (60 * h + 10 * m1 + m2)%N else None
      | _, _, _ => None
      end
  | String h1 (String h2 (String c (String m1 (String m2 EmptyString)))) =>
      match digitValue h1, digitValue h2, digitValue m1, digitValue m2 with
      | Some h1, Some h2, Some m1, Some m2 =>
          if Ascii.eqb c ":" && (10 * h1 + h2 <=? 23)%N && (m1 <=? 5)%N
          then Some (60 * (10 * h1 + h2) + 10 * m1 + m2)%N else None
      | _, _, _, _ => None
      end
  | _ => None
  end.

(** The specification's format: [HH:MM], two hour digits 00-23 and two
    minute digits 00-59. *)
Definition isHHMM (s : string) : bool :=
  match timeOfDay s with
  | Some _ => (String.length s =? 5)%nat
  | None => false
  end.

(** [endTime] strictly after [startTime], compared as times of day. *)
Definition chronologicallyAfter (endTime startTime : string) : bool :=
  match timeOfDay startTime, timeOfDay endTime with
  | Some a, Some b => (a <? b)%N
  | _, _ => false
  end.

(* ===================================================================== *)
(** ** Documents and collections *)
(* ===================================================================== *)

Inductive Role : Type := student | professor.

Record User : Type := {
  name : string;
  email : string;
  role : Role;
  department : option string
}.

(** Modelled from the spec: [models/Availability.js] is not among the
    sources. A slot has the fields the routes read and write; a new slot
    has [isBooked = false] and [bookedBy = null]. *)
Module Availability.
Record t : Type := {
  professor : ObjectId;
  date : Z;                  (* a JavaScript [Date]: milliseconds since the epoch *)
  startTime : string;
  endTime : string;
  isBooked : bool;
  bookedBy : option ObjectId
}.

(** [availability.isBooked = b; availability.bookedBy = s]. *)
Definition assign (b : bool) (s : option ObjectId) (a : t) : t :=
  {| professor := professor a; date := date a;
     startTime := startTime a; endTime := endTime a;
     isBooked := b; bookedBy := s |}.
End Availability.

Inductive Status : Type := pending | confirmed | cancelled | completed.

#[global] Instance Status_eq_dec : EqDecision Status.
Proof. solve_decision. Defined.

(** Modelled from the spec: [models/Appointment.js] is not among the
    sources. A booking that does not set [status] is stored as
    [confirmed]. *)
Module Appointment.
Record t : Type := {
  student : ObjectId;
  professor : ObjectId;
  availability : ObjectId;
  date : Z;
  startTime : string;
  endTime : string;
  notes : string;
  status : Status
}.

(** [appointment.status = s]. *)
Definition assign (s : Status) (a : t) : t :=
  {| student := student a; professor := professor a;
     availability := availability a; date := date a;
     startTime := startTime a; endTime := endTime a;
     notes := notes a; status := s |}.
End Appointment.

(** The three collections. *)
Record Db : Type := {
  users : gmap nat User;
  availabilities : gmap nat Availability.t;
  appointments : gmap nat Appointment.t
}.

Definition withAvailabilities (m : gmap nat Availability.t) (db : Db) : Db :=
  {| users := users db; availabilities := m; appointments := appointments db |}.

Definition withAppointments (m : gmap nat Appointment.t) (db : Db) : Db :=
  {| users := users db; availabilities := availabilities db; appointments := m |}.

(** A thrown JavaScript error. *)
Record Exn : Type := { exn_name : string; exn_message : string }.

Definition TypeError_null_id : Exn :=
  {| exn_name := "TypeError";
     exn_message := "Cannot read properties of null (reading '_id')" |}.

Definition DocumentNotFoundError : Exn :=
  {| exn_name := "DocumentNotFoundError";
     exn_message := "No document found for query" |}.

Definition CastError : Exn :=
  {| exn_name := "CastError"; exn_message := "Cast failed" |}.

(** Modelled from the spec: the time-order check of the Availability model
    ([models/Availability.js], not among the sources), run when a new slot
    is saved. The end must be strictly after the start, compared as times
    of day; the message is the one the [catch] block of [router.post('/')]
    looks for. *)
Definition Availability_preSave (a : Availability.t) : option Exn :=
  if chronologicallyAfter (Availability.endTime a) (Availability.startTime a)
  then None
  else Some {| exn_name := "Error";
               exn_message := "End time must be after start time" |}.

(* ===================================================================== *)
(** ** Queries *)
(* ===================================================================== *)

Inductive DateCond : Type :=
| DateEq (d : Z)         (* [date: d] *)
| DateGte (d : Z).       (* [date: { $gte: d }] *)

(** A filter object passed to [Availability.find]/[findOne]: an absent key
    does not constrain the document. *)
Record AvailabilityQuery : Type := {
  q_id : option ObjectId;
  q_professor : option ObjectId;
  q_date : option DateCond;
  q_startTime : option string;
  q_endTime : option string;
  q_isBooked : option bool
}.

(** [query.date = c]: assigning a key replaces whatever the key held. *)
Definition set_date (c : DateCond) (q : AvailabilityQuery) : AvailabilityQuery :=
  {| q_id := q_id q; q_professor := q_professor q; q_date := Some c;
     q_startTime := q_startTime q; q_endTime := q_endTime q;
     q_isBooked := q_isBooked q |}.

Definition holds {A} (c : option A) (p : A -> bool) : bool :=
  match c with Some x => p x | None => true end.

Definition dateHolds (c : DateCond) (d : Z) : bool :=
  match c with
  | DateEq d0 => (d =? d0)%Z
  | DateGte d0 => (d0 <=? d)%Z
  end.

Definition satisfies (q : AvailabilityQuery) (kv : nat * Availability.t) : bool :=
  holds (q_id q) (Nat.eqb kv.1)
  && holds (q_professor q) (Nat.eqb (Availability.professor kv.2))
  && holds (q_date q) (fun c => dateHolds c (Availability.date kv.2))
  && holds (q_startTime q) (String.eqb (Availability.startTime kv.2))
  && holds (q_endTime q) (String.eqb (Availability.endTime kv.2))
  && holds (q_isBooked q) (Bool.eqb (Availability.isBooked kv.2)).

Definition selectAvailabilities (q : AvailabilityQuery) (db : Db)
  : list (nat * Availability.t) :=
  List.filter (satisfies q) (map_to_list (availabilities db)).

(** [.sort({ date: 1, startTime: 1 })]: ascending by date, ties broken by
    the start-time string. *)
Definition sortKeyLe (x y : nat * Availability.t) : bool :=
  (Availability.date x.2 <? Availability.date y.2)%Z
  || ((Availability.date x.2 =? Availability.date y.2)%Z
      && String.leb (Availability.startTime x.2) (Availability.startTime y.2)).

Definition SortKeyLe (x y : nat * Availability.t) : Prop :=
  sortKeyLe x y = true.

#[global] Instance SortKeyLe_dec : RelDecision SortKeyLe.
Proof. intros x y. unfold SortKeyLe. apply _. Defined.

Definition sortByDateStart (l : list (nat * Availability.t))
  : list (nat * Availability.t) :=
  merge_sort SortKeyLe l.

(** The string a status is stored as. *)
Definition statusName (s : Status) : string :=
  match s with
  | pending => "pending"
  | confirmed => "confirmed"
  | cancelled => "cancelled"
  | completed => "completed"
  end.

(** A filter object passed to [Appointment.find]/[findOne]. The status is
    the raw query-string value. *)
Record AppointmentQuery : Type := {
  aq_id : option ObjectId;
  aq_student : option ObjectId;
  aq_professor : option ObjectId;
  aq_status : option string;
  aq_date : option Z
}.

Definition satisfiesAppointment (q : AppointmentQuery)
    (kv : nat * Appointment.t) : bool :=
  holds (aq_id q) (Nat.eqb kv.1)
  && holds (aq_student q) (Nat.eqb (Appointment.student kv.2))
  && holds (aq_professor q) (Nat.eqb (Appointment.professor kv.2))
  && holds (aq_status q) (String.eqb (statusName (Appointment.status kv.2)))
  && holds (aq_date q) (Z.eqb (Appointment.date kv.2)).

Definition selectAppointments (q : AppointmentQuery) (db : Db)
  : list (nat * Appointment.t) :=
  List.filter (satisfiesAppointment q) (map_to_list (appointments db)).

(** [.sort({ date: 1, startTime: 1 })] on appointments. *)
Definition appointmentKeyLe (x y : nat * Appointment.t) : bool :=
  (Appointment.date x.2 <? Appointment.date y.2)%Z
  || ((Appointment.date x.2 =? Appointment.date y.2)%Z
      && String.leb (Appointment.startTime x.2) (Appointment.startTime y.2)).

Definition AppointmentKeyLe (x y : nat * Appointment.t) : Prop :=
  appointmentKeyLe x y = true.

#[global] Instance AppointmentKeyLe_dec : RelDecision AppointmentKeyLe.
Proof. intros x y. unfold AppointmentKeyLe. apply _. Defined.

Definition sortAppointments (l : list (nat * Appointment.t))
  : list (nat * Appointment.t) :=
  merge_sort AppointmentKeyLe l.

(* ===================================================================== *)
(** ** Awaited operations and handlers *)
(* ===================================================================== *)

(** The Mongoose calls the routes await. The index is the type of the
    awaited value. *)
Inductive Op : Type -> Type :=
| User_findById (id : ObjectId) : Op (option User)
| Availability_findOne (q : AvailabilityQuery) : Op (option (nat * Availability.t))
| Availability_find_sorted (q : AvailabilityQuery) : Op (list (nat * Availability.t))
| Availability_insert (doc : Availability.t) : Op (Exn + nat)
| Availability_update (id : ObjectId) (b : bool) (s : option ObjectId) : Op bool
| Availability_findByIdAndDelete (id : ObjectId) : Op unit
| Appointment_findOne (id prof : ObjectId) : Op (option Appointment.t)
| Appointment_findOne_where (q : AppointmentQuery)
    : Op (option (nat * Appointment.t))
| Appointment_find_sorted (q : AppointmentQuery)
    : Op (list (nat * Appointment.t))
| Appointment_insert (doc : Appointment.t) : Op nat
| Appointment_update (id : ObjectId) (s : Status) : Op bool.

(** One operation against the database.
    - [findOne] returns a document satisfying the filter, if any;
    - [insert] is [save()] of a new document: the pre-save check may
      refuse it, otherwise it is stored under an id not in the
      collection (nothing is assumed of documents that mention the id:
      the statements below hold whether or not a stale reference to it
      is stored);
    - [update] is [save()] of a loaded document whose assigned paths are
      written back: it reports whether the document was still there. *)
Definition exec {X} (op : Op X) (db : Db) : X * Db :=
  match op in Op X return X * Db with
  | User_findById id => (users db !! id, db)
  | Availability_findOne q => (head (selectAvailabilities q db), db)
  | Availability_find_sorted q => (sortByDateStart (selectAvailabilities q db), db)
  | Availability_insert doc =>
      match Availability_preSave doc with
      | Some e => (inl e, db)
      | None =>
          let id := fresh (dom (availabilities db)) in
          (inr id, withAvailabilities (<[id := doc]> (availabilities db)) db)
      end
  | Availability_update id b s =>
      match availabilities db !! id with
      | Some a =>
          (true, withAvailabilities
                   (<[id := Availability.assign b s a]> (availabilities db)) db)
      | None => (false, db)
      end
  | Availability_findByIdAndDelete id =>
      (tt, withAvailabilities (delete id (availabilities db)) db)
  | Appointment_findOne id prof =>
      (match appointments db !! id with
       | Some a => if Nat.eqb (Appointment.professor a) prof then Some a else None
       | None => None
       end, db)
  | Appointment_findOne_where q => (head (selectAppointments q db), db)
  | Appointment_find_sorted q =>
      (sortAppointments (selectAppointments q db), db)
  | Appointment_insert doc =>
      let id := fresh (dom (appointments db)) in
      (id, withAppointments (<[id := doc]> (appointments db)) db)
  | Appointment_update id s =>
      match appointments db !! id with
      | Some a =>
          (true, withAppointments
                   (<[id := Appointment.assign s a]> (appointments db)) db)
      | None => (false, db)
      end
  end.

(** The JSON envelope [{ success, message, data | errors }] and the HTTP
    status it is sent with. *)
Inductive Data : Type :=
| NoData
| ValidationErrors (errors : list string)
| AvailabilityDoc (id : ObjectId) (doc : Availability.t)
| AvailabilityDocs (docs : list (nat * Availability.t))
| AppointmentDoc (id : ObjectId) (doc : Appointment.t)
| AppointmentDocs (docs : list (nat * Appointment.t)).

Record Response : Type := {
  statusCode : nat;
  success : bool;
  text : option string;
  data : Data
}.

(** [res.status(c).json({ success: false, message: m })]. *)
Definition failure (c : nat) (m : string) : Response :=
  {| statusCode := c; success := false; text := Some m; data := NoData |}.

(** A handler: straight-line JavaScript between awaited operations.
    [Send] is [return res.status(..).json(..)], [Throw] a raised error. *)
Inductive Prog (A : Type) : Type :=
| Pure (a : A)
| Send (r : Response)
| Throw (e : Exn)
| Await {X : Type} (op : Op X) (k : X -> Prog A).

Arguments Pure {A} a.
Arguments Send {A} r.
Arguments Throw {A} e.
Arguments Await {A X} op k.

Fixpoint bind {A B} (m : Prog A) (f : A -> Prog B) : Prog B :=
  match m with
  | Pure a => f a
  | Send r => Send r
  | Throw e => Throw e
  | Await op k => Await op (fun x => bind (k x) f)
  end.

#[global] Instance Prog_ret : MRet Prog := fun A a => Pure a.
#[global] Instance Prog_bind : MBind Prog := fun A B f m => bind m f.

Definition await {X} (op : Op X) : Prog X := Await op Pure.

(** [try { body } catch (error) { handler }]. *)
Fixpoint try_catch {A} (body : Prog A) (handler : Exn -> Prog A) : Prog A :=
  match body with
  | Throw e => handler e
  | Await op k => Await op (fun x => try_catch (k x) handler)
  | Pure a => Pure a
  | Send r => Send r
  end.

Inductive Outcome (A : Type) : Type :=
| Completed (a : A)
| Responded (r : Response)
| Rejected (e : Exn).

Arguments Completed {A} a.
Arguments Responded {A} r.
Arguments Rejected {A} e.

(** A handler run alone, from its first statement to its last. *)
Fixpoint run {A} (p : Prog A) (db : Db) : Outcome A * Db :=
  match p with
  | Pure a => (Completed a, db)
  | Send r => (Responded r, db)
  | Throw e => (Rejected e, db)
  | Await op k => let '(x, db') := exec op db in run (k x) db'
  end.

(** The response a request gets and the database it leaves. *)
Definition respond {A} (p : Prog A) (db : Db) : option Response * Db :=
  match run p db with
  | (Responded r, db') => (Some r, db')
  | (_, db') => (None, db')
  end.

(** One turn of the event loop for a handler: the operation it awaits is
    performed and the handler continues up to its next [await]. *)
Definition step {A} (p : Prog A) (db : Db) : Prog A * Db :=
  match p with
  | Await op k => let '(x, db') := exec op db in (k x, db')
  | _ => (p, db)
  end.

(** Two requests in flight: the schedule says whose turn it is ([true]
    for the first). *)
Fixpoint interleave {A} (schedule : list bool) (p1 p2 : Prog A) (db : Db)
  : Prog A * Prog A * Db :=
  match schedule with
  | [] => (p1, p2, db)
  | true :: rest => let '(p1', db') := step p1 db in interleave rest p1' p2 db'
  | false :: rest => let '(p2', db') := step p2 db in interleave rest p1 p2' db'
  end.

(* ===================================================================== *)
(** ** Request bodies and validators *)
(* ===================================================================== *)

(** A [date] string of a request body, reduced to what the route observes
    of it: whether [isISO8601] accepts it, and what [new Date(date)]
    makes of an accepted one. The two do not agree: a week date such as
    2024-W40-5 or an ordinal date is ISO 8601, and [new Date] answers
    Invalid Date for it. *)
Inductive DateField : Type :=
| IsoDate (instant : Z)        (* accepted, and [new Date] gives this instant *)
| IsoUnparsed (raw : string)   (* accepted, and [new Date] gives Invalid Date *)
| NotIsoDate (raw : string).   (* refused by [isISO8601] *)

Definition isISO8601 (d : DateField) : bool :=
  match d with
  | IsoDate _ | IsoUnparsed _ => true
  | NotIsoDate _ => false
  end.

(** An id of the URL, reduced to what a query observes of it: Mongoose
    casts it to an [ObjectId], or the cast fails and the query rejects
    with a [CastError]. *)
Inductive IdParam : Type :=
| CastId (id : ObjectId)
| NoCast (raw : string).

(** A [date] parameter of the query string, as [if (date) query.date =
    new Date(date)] meets it: absent or empty, a string [new Date]
    parses, or a string for which [new Date] gives Invalid Date, which a
    query cannot cast. *)
Inductive DateParam : Type :=
| NoDate
| DateAt (instant : Z)
| InvalidDate (raw : string).

(** The parameters that are absent or parse. *)
Definition dateParam (date : option Z) : DateParam :=
  match date with
  | Some d => DateAt d
  | None => NoDate
  end.

(** What a query makes of the id it is given. The cast is the first thing
    the awaited query does, and a failed cast rejects it. *)
Definition castId (id : IdParam) : Prog ObjectId :=
  match id with
  | CastId id => Pure id
  | NoCast _ => Throw CastError
  end.

(** [if (date) query.date = new Date(date)], as the query that follows
    sees it: no condition, a date, or Invalid Date, on which the cast of
    the awaited query fails. *)
Definition castDate (date : DateParam) : Prog (option Z) :=
  match date with
  | NoDate => Pure None
  | DateAt d => Pure (Some d)
  | InvalidDate _ => Throw CastError
  end.

(** An id string of a request body, reduced in the same way: a well-formed
    [ObjectId] or not. *)
Inductive IdField : Type :=
| MongoId (id : ObjectId)
| NotMongoId (raw : string).

Definition isMongoId (i : IdField) : bool :=
  match i with MongoId _ => true | NotMongoId _ => false end.

Definition validator (ok : bool) (withMessage : string) : list string :=
  if ok then [] else [withMessage].

(** The [notes] string of a request body, reduced to what the route
    observes of it: the string the [trim()] sanitizer leaves in its place
    and whether [isLength({ max: 500 })] accepts that string. *)
Record Notes : Type := {
  trimmed : string;
  withinLimit : bool
}.

(** [haystack.includes(needle)]. *)
Fixpoint includes (haystack needle : string) : bool :=
  String.prefix needle haystack
  || match haystack with
     | String _ rest => includes rest needle
     | EmptyString => false
     end.

Module CreateSlot.
(** Body of [POST /api/availability]. *)
Record t : Type := { date : DateField; startTime : string; endTime : string }.

(** The express-validator chain of [router.post('/')]. *)
Definition validationResult (body : t) : list string :=
  validator (isISO8601 (date body)) "Please provide a valid date in ISO format"
  ++ validator (Regex.test timePattern (startTime body))
       "Start time must be in HH:MM format"
  ++ validator (Regex.test timePattern (endTime body))
       "End time must be in HH:MM format".
End CreateSlot.

Module BookSlot.
(** Body of [POST /api/appointments/book]; [notes] is optional. *)
Record t : Type := { availabilityId : IdField; notes : option Notes }.

(** [body('notes').optional().trim()] rewrites the field in place. *)
Definition sanitized (body : t) : option string := trimmed <$> notes body.

Definition validationResult (body : t) : list string :=
  validator (isMongoId (availabilityId body)) "Please provide a valid availability ID"
  ++ match notes body with
     | Some n => validator (withinLimit n) "Notes cannot exceed 500 characters"
     | None => []
     end.
End BookSlot.

(** [body('status').isIn(['pending', 'confirmed', 'cancelled', 'completed'])]. *)
Definition statusOfString (s : string) : option Status :=
  if String.eqb s "pending" then Some pending
  else if String.eqb s "confirmed" then Some confirmed
  else if String.eqb s "cancelled" then Some cancelled
  else if String.eqb s "completed" then Some completed
  else None.

Definition validationFailure (errors : list string) : Response :=
  {| statusCode := 400; success := false; text := Some "Validation errors";
     data := ValidationErrors errors |}.

Definition isEmpty {A} (l : list A) : bool :=
  match l with [] => true | _ :: _ => false end.

(** [Availability.findById(id)]. *)
Definition byId (id : ObjectId) : AvailabilityQuery :=
  {| q_id := Some id; q_professor := None; q_date := None;
     q_startTime := None; q_endTime := None; q_isBooked := None |}.

(** [doc.save()] of a loaded document rejects when the document is gone. *)
Definition saved (matched : bool) : Prog unit :=
  if matched then Pure tt else Throw DocumentNotFoundError.

(* ===================================================================== *)
(** ** routes/availability.js *)
(* ===================================================================== *)

(** In every handler [user] is [req.user._id], the caller the [auth] and
    [authorize] middleware let through, and [now] is the value of
    [new Date()] when the handler reads the clock. [populate] calls that
    only decorate the response document are left out; those whose result
    the handler dereferences are awaited reads. *)

(** [router.post('/')]: create an availability slot (CreateSlot). *)
Definition createSlot (user : ObjectId) (body : CreateSlot.t) : Prog unit :=
  try_catch
    (let errors := CreateSlot.validationResult body in
     if negb (isEmpty errors) then Send (validationFailure errors)
     else
       match CreateSlot.date body with
       | IsoUnparsed _ | NotIsoDate _ =>
           (* [date: new Date(date)] is Invalid Date: [findOne] rejects *)
           Throw CastError
       | IsoDate date =>
           let startTime := CreateSlot.startTime body in
           let endTime := CreateSlot.endTime body in
           (* Check if slot already exists *)
           existingSlot ← await (Availability_findOne
             {| q_id := None; q_professor := Some user;
                q_date := Some (DateEq date);
                q_startTime := Some startTime; q_endTime := Some endTime;
                q_isBooked := None |});
           match existingSlot with
           | Some _ => Send (failure 400 "This time slot already exists")
           | None =>
               let availability :=
                 {| Availability.professor := user;
                    Availability.date := date;
                    Availability.startTime := startTime;
                    Availability.endTime := endTime;
                    Availability.isBooked := false;
                    Availability.bookedBy := None |} in
               result ← await (Availability_insert availability);
               match result with
               | inl error => Throw error
               | inr id =>
                   Send {| statusCode := 201; success := true;
                           text := Some "Availability slot created successfully";
                           data := AvailabilityDoc id availability |}
               end
           end
       end)
    (fun error =>
       if includes (exn_message error) "End time must be after start time"
       then Send (failure 400 (exn_message error))
       else Send (failure 500 "Error creating availability slot")).

(** [router.get('/professor/:professorId')]: the open slots of a professor
    (ListAvailableSlotsForProfessor). [date] is the optional query
    parameter. *)
Definition listAvailableSlotsForProfessor
    (professorId : IdParam) (date : DateParam) (now : Z) : Prog unit :=
  try_catch
    ((* Verify professor exists *)
     professorId ← castId professorId;
     found ← await (User_findById professorId);
     let isProfessor :=
       match found with
       | Some u => match role u with professor => true | student => false end
       | None => false
       end in
     if negb isProfessor then Send (failure 404 "Professor not found")
     else
       let query :=
         {| q_id := None; q_professor := Some professorId;
            q_date := Some (DateGte now);      (* Only future slots *)
            q_startTime := None; q_endTime := None;
            q_isBooked := Some false |} in
       date ← castDate date;
       let query :=
         match date with
         | Some d => set_date (DateEq d) query
         | None => query
         end in
       availability ← await (Availability_find_sorted query);
       Send {| statusCode := 200; success := true; text := None;
               data := AvailabilityDocs availability |})
    (fun _ => Send (failure 500 "Error fetching professor availability")).

(** [router.delete('/:slotId')]: delete an unbooked slot (DeleteSlot). *)
Definition deleteSlot (user : ObjectId) (slotId : IdParam) : Prog unit :=
  try_catch
    (slotId ← castId slotId;
     found ← await (Availability_findOne
       {| q_id := Some slotId; q_professor := Some user; q_date := None;
          q_startTime := None; q_endTime := None; q_isBooked := None |});
     match found with
     | None => Send (failure 404 "Availability slot not found")
     | Some (_, availability) =>
         if Availability.isBooked availability
         then Send (failure 400
                "Cannot delete booked slot. Cancel the appointment first.")
         else
           _ ← await (Availability_findByIdAndDelete slotId);
           Send {| statusCode := 200; success := true;
                   text := Some "Availability slot deleted successfully";
                   data := NoData |}
     end)
    (fun _ => Send (failure 500 "Error deleting availability slot")).

(* ===================================================================== *)
(** ** routes/appointments.js *)
(* ===================================================================== *)

(** [router.post('/book')]: book a slot (BookSlot). *)
Definition bookSlot (user : ObjectId) (body : BookSlot.t) (now : Z) : Prog unit :=
  try_catch
    (let errors := BookSlot.validationResult body in
     if negb (isEmpty errors) then Send (validationFailure errors)
     else
       let notes := default "" (BookSlot.sanitized body) in
       match BookSlot.availabilityId body with
       | NotMongoId _ => Throw CastError
       | MongoId availabilityId =>
           (* Find the availability slot *)
           found ← await (Availability_findOne (byId availabilityId));
           match found with
           | None => Send (failure 404 "Availability slot not found")
           | Some (_, availability) =>
               (* .populate('professor', 'name email') *)
               populated ← await
                 (User_findById (Availability.professor availability));
               if Availability.isBooked availability
               then Send (failure 400 "This time slot is already booked")
               else
                 (* Check if the slot is in the future *)
                 let slotDateTime := Availability.date availability in
                 if (slotDateTime <? now)%Z
                 then Send (failure 400 "Cannot book past time slots")
                 else
                   match populated with
                   | None => Throw TypeError_null_id  (* availability.professor._id *)
                   | Some _ =>
                       (* Create the appointment *)
                       let appointment :=
                         {| Appointment.student := user;
                            Appointment.professor :=
                              Availability.professor availability;
                            Appointment.availability := availabilityId;
                            Appointment.date := Availability.date availability;
                            Appointment.startTime :=
                              Availability.startTime availability;
                            Appointment.endTime :=
                              Availability.endTime availability;
                            Appointment.notes := notes;
                            Appointment.status := confirmed |} in
                       id ← await (Appointment_insert appointment);
                       (* Mark the availability slot as booked *)
                       matched ← await
                         (Availability_update availabilityId true (Some user));
                       _ ← saved matched;
                       Send {| statusCode := 201; success := true;
                               text := Some "Appointment booked successfully";
                               data := AppointmentDoc id appointment |}
                   end
           end
       end)
    (fun _ => Send (failure 500 "Error booking appointment")).

(** [router.put('/cancel/:appointmentId')]: cancel an appointment
    (CancelAppointment). *)
Definition cancelAppointment (user : ObjectId) (appointmentId : IdParam)
  : Prog unit :=
  try_catch
    (appointmentId ← castId appointmentId;
     found ← await (Appointment_findOne appointmentId user);
     match found with
     | None => Send (failure 404 "Appointment not found")
     | Some appointment =>
         (* .populate([..., { path: 'availability' }]) *)
         populated ← await
           (Availability_findOne (byId (Appointment.availability appointment)));
         match Appointment.status appointment with
         | cancelled => Send (failure 400 "Appointment is already cancelled")
         | _ =>
             (* Update appointment status *)
             matched ← await (Appointment_update appointmentId cancelled);
             _ ← saved matched;
             (* Free up the availability slot *)
             match populated with
             | None => Throw TypeError_null_id  (* appointment.availability._id *)
             | Some (slotId, _) =>
                 availability ← await (Availability_findOne (byId slotId));
                 _ ← match availability with
                     | Some _ =>
                         matched ← await (Availability_update slotId false None);
                         saved matched
                     | None => Pure tt
                     end;
                 Send {| statusCode := 200; success := true;
                         text := Some "Appointment cancelled successfully";
                         data := AppointmentDoc appointmentId
                                   (Appointment.assign cancelled appointment) |}
             end
         end
     end)
    (fun _ => Send (failure 500 "Error cancelling appointment")).

(** [router.put('/:appointmentId/status')]: set the status of an
    appointment (UpdateAppointmentStatus). *)
Definition updateAppointmentStatus
    (user : ObjectId) (appointmentId : IdParam) (status : string) : Prog unit :=
  try_catch
    (match statusOfString status with
     | None => Send (validationFailure ["Invalid status"])
     | Some status =>
         appointmentId ← castId appointmentId;
         found ← await (Appointment_findOne appointmentId user);
         match found with
         | None => Send (failure 404 "Appointment not found")
         | Some appointment =>
             matched ← await (Appointment_update appointmentId status);
             _ ← saved matched;
             (* If cancelled, free up the slot *)
             _ ← match status with
                 | cancelled =>
                     availability ← await (Availability_findOne
                       (byId (Appointment.availability appointment)));
                     match availability with
                     | Some _ =>
                         matched ← await (Availability_update
                           (Appointment.availability appointment) false None);
                         saved matched
                     | None => Pure tt
                     end
                 | _ => Pure tt
                 end;
             Send {| statusCode := 200; success := true;
                     text := Some "Appointment status updated successfully";
                     data := AppointmentDoc appointmentId
                               (Appointment.assign status appointment) |}
         end
     end)
    (fun _ => Send (failure 500 "Error updating appointment status")).

(* ===================================================================== *)
(** ** Vocabulary of the statements *)
(* ===================================================================== *)

(** [s] denotes a time of day. *)
Definition denotesTime (s : string) : bool :=
  match timeOfDay s with Some _ => true | None => false end.

Definition alreadyBooked : Response :=
  failure 400 "This time slot is already booked".

Definition pastSlot : Response :=
  failure 400 "Cannot book past time slots".

(** The start of a slot as a moment: its date plus its start time of day
    (the reading of "date/time" in the specification). *)
Definition startMoment (a : Availability.t) : option Z :=
  match timeOfDay (Availability.startTime a) with
  | Some minutes => Some (Availability.date a + 60000 * Z.of_N minutes)%Z
  | None => None
  end.

(** [id] resolves to a user with role professor. *)
Definition isProfessor (db : Db) (id : nat) : Prop :=
  exists u, users db !! id = Some u /\ role u = professor.

(** The filter the listing applies: the professor's unbooked slots, on the
    given date when one is supplied and otherwise from the current instant
    on. *)
Definition listed (professorId : nat) (date : option Z) (now : Z)
    (a : Availability.t) : Prop :=
  Availability.professor a = professorId
  /\ Availability.isBooked a = false
  /\ match date with
     | Some d => Availability.date a = d
     | None => (now <= Availability.date a)%Z
     end.


Definition okList (docs : list (nat * Availability.t)) : Response :=
  {| statusCode := 200; success := true; text := None;
     data := AvailabilityDocs docs |}.

(** A stored slot equal to the requested one in all four fields. *)
Definition sameSlot (user : nat) (date : Z) (startTime endTime : string)
    (a : Availability.t) : Prop :=
  Availability.professor a = user
  /\ Availability.date a = date
  /\ Availability.startTime a = startTime
  /\ Availability.endTime a = endTime.

(** The filter of the duplicate check. *)
Definition duplicateQuery (user : nat) (date : Z) (startTime endTime : string)
  : AvailabilityQuery :=
  {| q_id := None; q_professor := Some user; q_date := Some (DateEq date);
     q_startTime := Some startTime; q_endTime := Some endTime;
     q_isBooked := None |}.

(** The document [new Availability({ professor, date, startTime, endTime })]. *)
Definition newSlot (user : nat) (date : Z) (startTime endTime : string)
  : Availability.t :=
  {| Availability.professor := user; Availability.date := date;
     Availability.startTime := startTime; Availability.endTime := endTime;
     Availability.isBooked := false; Availability.bookedBy := None |}.

Definition created (id : nat) (doc : Availability.t) : Response :=
  {| statusCode := 201; success := true;
     text := Some "Availability slot created successfully";
     data := AvailabilityDoc id doc |}.


Definition alreadyCancelled : Response :=
  failure 400 "Appointment is already cancelled".

Definition cancelledOk (id : nat) (a : Appointment.t) : Response :=
  {| statusCode := 200; success := true;
     text := Some "Appointment cancelled successfully";
     data := AppointmentDoc id (Appointment.assign cancelled a) |}.

Definition statusUpdated (id : nat) (a : Appointment.t) : Response :=
  {| statusCode := 200; success := true;
     text := Some "Appointment status updated successfully";
     data := AppointmentDoc id a |}.

(** The slot [k] put back on offer, if it is still stored. *)
Definition release (k : nat) (m : gmap nat Availability.t)
  : gmap nat Availability.t :=
  match m !! k with
  | Some slot => <[k := Availability.assign false None slot]> m
  | None => m
  end.

(** The appointment a booking of [slot] (stored under [id]) creates. *)
Definition booking (user id : nat) (slot : Availability.t) (body : BookSlot.t)
  : Appointment.t :=
  {| Appointment.student := user;
     Appointment.professor := Availability.professor slot;
     Appointment.availability := id;
     Appointment.date := Availability.date slot;
     Appointment.startTime := Availability.startTime slot;
     Appointment.endTime := Availability.endTime slot;
     Appointment.notes := default "" (BookSlot.sanitized body);
     Appointment.status := confirmed |}.

Definition booked (id : nat) (a : Appointment.t) : Response :=
  {| statusCode := 201; success := true;
     text := Some "Appointment booked successfully";
     data := AppointmentDoc id a |}.

(** The database after [user] booked [slot]. *)
Definition afterBooking (db : Db) (user id : nat) (slot : Availability.t)
    (body : BookSlot.t) : Db :=
  {| users := users db;
     availabilities :=
       <[id := Availability.assign true (Some user) slot]> (availabilities db);
     appointments :=
       <[fresh (dom (appointments db)) := booking user id slot body]>
         (appointments db) |}.

(** A slot is open at [now]: stored, not booked, not dated before [now],
    and its professor is a stored user. *)
Definition openSlot (db : Db) (id : nat) (slot : Availability.t) (now : Z)
  : Prop :=
  availabilities db !! id = Some slot
  /\ Availability.isBooked slot = false
  /\ (now <= Availability.date slot)%Z
  /\ is_Some (users db !! Availability.professor slot).

(** The handler an outcome leaves behind. *)
Definition settled {A} (o : Outcome A) : Prog A :=
  match o with
  | Completed a => Pure a
  | Responded r => Send r
  | Rejected e => Throw e
  end.

(** An appointment that is not cancelled. *)
Definition active (a : Appointment.t) : Prop :=
  Appointment.status a <> cancelled.

(** Some appointment that is not cancelled references slot [k]. *)
Definition referenced (db : Db) (k : nat) : Prop :=
  exists i a, appointments db !! i = Some a
              /\ Appointment.availability a = k /\ active a.

(** The cross-entity invariant of the specification: a slot is flagged
    booked exactly when a non-cancelled appointment references it. *)
Definition consistent (db : Db) : Prop :=
  forall k slot, availabilities db !! k = Some slot ->
    (Availability.isBooked slot = true <-> referenced db k).

(** At most one non-cancelled appointment per slot. *)
Definition exclusive (db : Db) : Prop :=
  forall i j a b,
    appointments db !! i = Some a -> appointments db !! j = Some b ->
    active a -> active b ->
    Appointment.availability a = Appointment.availability b -> i = j.

(** A non-cancelled appointment references a stored slot. *)
Definition anchored (db : Db) : Prop :=
  forall i a, appointments db !! i = Some a -> active a ->
    is_Some (availabilities db !! Appointment.availability a).

(** What booking and cancelling maintain. *)
Definition invariant (db : Db) : Prop :=
  consistent db /\ exclusive db /\ anchored db.

Inductive Request : Type :=
| CreateSlotRequest (user : ObjectId) (body : CreateSlot.t)
| DeleteSlotRequest (user : ObjectId) (slotId : IdParam)
| BookSlotRequest (user : ObjectId) (body : BookSlot.t) (now : Z)
| CancelAppointmentRequest (user : ObjectId) (appointmentId : IdParam)
| UpdateAppointmentStatusRequest
    (user : ObjectId) (appointmentId : IdParam) (status : string).

Definition handler (r : Request) : Prog unit :=
  match r with
  | CreateSlotRequest user body => createSlot user body
  | DeleteSlotRequest user slotId => deleteSlot user slotId
  | BookSlotRequest user body now => bookSlot user body now
  | CancelAppointmentRequest user id => cancelAppointment user id
  | UpdateAppointmentStatusRequest user id status =>
      updateAppointmentStatus user id status
  end.

(** The database after a request has been served. *)
Definition serve (db : Db) (r : Request) : Db := (respond (handler r) db).2.

Definition serveAll (db : Db) (rs : list Request) : Db := foldl serve db rs.

Definition isStatusUpdate (r : Request) : bool :=
  match r with UpdateAppointmentStatusRequest _ _ _ => true | _ => false end.

Definition drGrey : User :=
  {| name := "Dr Grey"; email := "grey@college.edu"; role := professor;
     department := Some "Computer Science" |}.

Definition alice : User :=
  {| name := "Alice"; email := "alice@college.edu"; role := student;
     department := None |}.

Definition bob : User :=
  {| name := "Bob"; email := "bob@college.edu"; role := student;
     department := None |}.

Definition hour : Z := 3600000.
Definition day : Z := 24 * hour.

(** Midnight (UTC) of 4 October 2024, as [new Date("2024-10-04")] gives it. *)
Definition oct4 : Z := 20000 * day.


Definition people : gmap nat User :=
  <[1 := drGrey]> (<[2 := alice]> (<[3 := bob]> ∅)).

(** Dr Grey (user 1) offers 10:00-11:00 on 4 October as slot 0; Alice and
    Bob are users 2 and 3; nothing is booked. *)
Definition campus : Db :=
  {| users := people;
     availabilities := {[0 := newSlot 1 oct4 "10:00" "11:00"]};
     appointments := ∅ |}.

(** The same college with a late slot, 23:00-23:30 on 4 October. *)
Definition lateCampus : Db :=
  {| users := people;
     availabilities := {[0 := newSlot 1 oct4 "23:00" "23:30"]};
     appointments := ∅ |}.

Definition request (slot : nat) : BookSlot.t :=
  {| BookSlot.availabilityId := MongoId slot;
     BookSlot.notes :=
       Some {| trimmed := "Discuss final project requirements";
               withinLimit := true |} |}.

Definition dayBefore : Z := (oct4 - day)%Z.
Definition noon : Z := (oct4 + 12 * hour)%Z.

(** The end-to-end flow of the repository's test: two slots are created
    and listed, each is booked by a student, the first booking is
    cancelled by the professor, and the first slot is on offer again. *)
Definition e2e : list Request :=
  [ CreateSlotRequest 1 {| CreateSlot.date := IsoDate oct4;
                           CreateSlot.startTime := "14:00";
                           CreateSlot.endTime := "15:00" |};
    BookSlotRequest 2 (request 0) dayBefore;
    BookSlotRequest 3 (request 1) dayBefore;
    CancelAppointmentRequest 1 (CastId 0) ].

(** Alice books slot 0 and Dr Grey cancels; Bob books the freed slot; then
    a status update cancels Alice's appointment a second time. *)
Definition recancel : list Request :=
  [ BookSlotRequest 2 (request 0) dayBefore;
    CancelAppointmentRequest 1 (CastId 0);
    BookSlotRequest 3 (request 0) dayBefore;
    UpdateAppointmentStatusRequest 1 (CastId 0) "cancelled" ].

(** A cancelled appointment set back to confirmed. *)
Definition uncancel : list Request :=
  [ BookSlotRequest 2 (request 0) dayBefore;
    UpdateAppointmentStatusRequest 1 (CastId 0) "cancelled";
    UpdateAppointmentStatusRequest 1 (CastId 0) "confirmed" ].

(** How an appointment that is not cancelled comes to reference a slot that
    is gone: the status route frees the slot, the professor deletes it,
    and the status route confirms the appointment again. *)
Definition orphaning : list Request :=
  [ BookSlotRequest 2 (request 0) dayBefore;
    UpdateAppointmentStatusRequest 1 (CastId 0) "cancelled";
    DeleteSlotRequest 1 (CastId 0);
    UpdateAppointmentStatusRequest 1 (CastId 0) "confirmed" ].

Definition orphaned : Db := serveAll campus orphaning.

Definition aliceBooking : Appointment.t :=
  booking 2 0 (newSlot 1 oct4 "10:00" "11:00") (request 0).


(** Slot 0 once Alice has booked it. *)
Definition takenSlot : Availability.t :=
  Availability.assign true (Some 2) (newSlot 1 oct4 "10:00" "11:00").

(** The college after Alice booked slot 0. *)
Definition bookedCampus : Db :=
  serveAll campus [BookSlotRequest 2 (request 0) dayBefore].

(** ... and after Dr Grey cancelled that appointment. *)
Definition cancelledCampus : Db :=
  serveAll campus [BookSlotRequest 2 (request 0) dayBefore;
                   CancelAppointmentRequest 1 (CastId 0)].

(** ... and after Bob booked the slot Dr Grey had freed. *)
Definition rebookedCampus : Db :=
  serveAll campus [BookSlotRequest 2 (request 0) dayBefore;
                   CancelAppointmentRequest 1 (CastId 0);
                   BookSlotRequest 3 (request 0) dayBefore].

(* ===================================================================== *)
(** ** The read-only routes *)
(* ===================================================================== *)

(** [query.isBooked = b]. *)
Definition set_isBooked (b : bool) (q : AvailabilityQuery) : AvailabilityQuery :=
  {| q_id := q_id q; q_professor := q_professor q; q_date := q_date q;
     q_startTime := q_startTime q; q_endTime := q_endTime q;
     q_isBooked := Some b |}.

(** [param === literal] for a query-string parameter that may be absent. *)
Definition paramIs (param : option string) (literal : string) : bool :=
  match param with
  | Some s => String.eqb s literal
  | None => false
  end.

(** [router.get('/my-slots')]: the caller's own slots (ListOwnSlots), with
    the optional [date] and [status] query parameters. *)
Definition mySlots (user : ObjectId) (date : DateParam) (status : option string)
  : Prog unit :=
  try_catch
    (let query :=
       {| q_id := None; q_professor := Some user; q_date := None;
          q_startTime := None; q_endTime := None; q_isBooked := None |} in
     date ← castDate date;
     let query :=
       match date with
       | Some d => set_date (DateEq d) query
       | None => query
       end in
     let query :=
       if paramIs status "available" then set_isBooked false query
       else if paramIs status "booked" then set_isBooked true query
       else query in
     availability ← await (Availability_find_sorted query);
     Send {| statusCode := 200; success := true; text := None;
             data := AvailabilityDocs availability |})
    (fun _ => Send (failure 500 "Error fetching availability slots")).

(** [if (param)]: an absent or empty query-string parameter is falsy. *)
Definition truthy (param : option string) : option string :=
  match param with
  | Some s => if Regex.is_empty s then None else Some s
  | None => None
  end.

(** The answer of [my-appointments] and [professors],
    [res.json({ success: true, data })]: status 200. The one awaited
    call of these two routes is a query whose filter holds nothing to
    cast but the caller's own id and strings, so it does not reject and
    the [catch] branch is not taken. *)
Record Reply (A : Type) : Type := {
  replyCode : nat;
  replySuccess : bool;
  replyData : A
}.

Arguments replyCode {A} r.
Arguments replySuccess {A} r.
Arguments replyData {A} r.

Definition json {A} (data : A) : Reply A :=
  {| replyCode := 200; replySuccess := true; replyData := data |}.

(** [router.get('/my-appointments')]: the calling student's appointments,
    with the optional [status] query parameter. *)
Definition myAppointments (user : ObjectId) (status : option string) (db : Db)
  : Reply (list (nat * Appointment.t)) :=
  let query :=
    {| aq_id := None; aq_student := Some user; aq_professor := None;
       aq_status := None; aq_date := None |} in
  let query :=
    match truthy status with
    | Some s =>
        {| aq_id := aq_id query; aq_student := aq_student query;
           aq_professor := aq_professor query; aq_status := Some s;
           aq_date := aq_date query |}
    | None => query
    end in
  json (sortAppointments (selectAppointments query db)).

(** [router.get('/professor-appointments')]: the calling professor's
    appointments, with the optional [status] and [date] parameters. *)
Definition professorAppointments (user : ObjectId) (status : option string)
    (date : DateParam) : Prog unit :=
  try_catch
    (let query :=
       {| aq_id := None; aq_student := None; aq_professor := Some user;
          aq_status := None; aq_date := None |} in
     let query :=
       match truthy status with
       | Some s =>
           {| aq_id := aq_id query; aq_student := aq_student query;
              aq_professor := aq_professor query; aq_status := Some s;
              aq_date := aq_date query |}
       | None => query
       end in
     date ← castDate date;
     let query :=
       match date with
       | Some d =>
           {| aq_id := aq_id query; aq_student := aq_student query;
              aq_professor := aq_professor query; aq_status := aq_status query;
              aq_date := Some d |}
       | None => query
       end in
     appointments ← await (Appointment_find_sorted query);
     Send {| statusCode := 200; success := true; text := None;
             data := AppointmentDocs appointments |})
    (fun _ => Send (failure 500 "Error fetching appointments")).

(** [router.get('/:appointmentId')]: one appointment, visible to its
    participants only. [role] is [req.user.role]; a user is a student or a
    professor, so one of the two restrictions always applies. *)
Definition getAppointment (user : ObjectId) (role : Role)
    (appointmentId : IdParam) : Prog unit :=
  try_catch
    (appointmentId ← castId appointmentId;
     let query :=
       match role with
       | student =>
           (* Students can only see their own appointments *)
           {| aq_id := Some appointmentId; aq_student := Some user;
              aq_professor := None; aq_status := None; aq_date := None |}
       | professor =>
           (* Professors can only see appointments with them *)
           {| aq_id := Some appointmentId; aq_student := None;
              aq_professor := Some user; aq_status := None; aq_date := None |}
       end in
     found ← await (Appointment_findOne_where query);
     match found with
     | None => Send (failure 404 "Appointment not found")
     | Some (id, appointment) =>
         Send {| statusCode := 200; success := true; text := None;
                 data := AppointmentDoc id appointment |}
     end)
    (fun _ => Send (failure 500 "Error fetching appointment")).

(** [.select('name email department')]. *)
Record Profile : Type := {
  profileName : string;
  profileEmail : string;
  profileDepartment : option string
}.

Definition selectProfile (u : User) : Profile :=
  {| profileName := name u; profileEmail := email u;
     profileDepartment := department u |}.

Definition hasRole (r : Role) (kv : nat * User) : bool :=
  match role kv.2, r with
  | student, student | professor, professor => true
  | _, _ => false
  end.

(** [.sort({ name: 1 })]. *)
Definition NameLe (x y : nat * Profile) : Prop :=
  String.leb (profileName x.2) (profileName y.2) = true.

#[global] Instance NameLe_dec : RelDecision NameLe.
Proof. intros x y. unfold NameLe. apply _. Defined.

(** [router.get('/professors')]: every professor, by name. *)
Definition professors (db : Db) : Reply (list (nat * Profile)) :=
  json (merge_sort NameLe
          ((fun kv => (kv.1, selectProfile kv.2))
             <$> List.filter (hasRole professor) (map_to_list (users db)))).

(** What a stored booking is about: everything but its status. *)
Definition sameBooking (a b : Appointment.t) : Prop :=
  Appointment.student a = Appointment.student b
  /\ Appointment.professor a = Appointment.professor b
  /\ Appointment.availability a = Appointment.availability b
  /\ Appointment.date a = Appointment.date b
  /\ Appointment.startTime a = Appointment.startTime b
  /\ Appointment.endTime a = Appointment.endTime b
  /\ Appointment.notes a = Appointment.notes b.

(** What a stored slot offers: everything but its booking flag. *)
Definition sameOffer (a b : Availability.t) : Prop :=
  Availability.professor a = Availability.professor b
  /\ Availability.date a = Availability.date b
  /\ Availability.startTime a = Availability.startTime b
  /\ Availability.endTime a = Availability.endTime b.

(** No two stored slots offer the same professor, date, start and end. *)
Definition uniqueSlots (db : Db) : Prop :=
  forall k1 k2 s1 s2,
    availabilities db !! k1 = Some s1 -> availabilities db !! k2 = Some s2 ->
    sameOffer s1 s2 -> k1 = k2.

(** Every stored slot has start and end strings that denote times. *)
Definition wellTimed (db : Db) : Prop :=
  forall k s, availabilities db !! k = Some s ->
    denotesTime (Availability.startTime s) = true
    /\ denotesTime (Availability.endTime s) = true.

Definition deleted : Response :=
  {| statusCode := 200; success := true;
     text := Some "Availability slot deleted successfully"; data := NoData |}.

Definition slotNotFound : Response := failure 404 "Availability slot not found".

Definition appointmentNotFound : Response := failure 404 "Appointment not found".


(** Every stored slot of [db'] is a stored slot of [db], up to its booking
    flag. *)
Definition slotsFrom (db db' : Db) : Prop :=
  forall k s', availabilities db' !! k = Some s' ->
    exists s, availabilities db !! k = Some s /\ sameOffer s s'.

(** The filter of [my-slots]. *)
Definition ownListed (user : nat) (date : option Z) (status : option string)
    (a : Availability.t) : Prop :=
  Availability.professor a = user
  /\ match date with
     | Some d => Availability.date a = d
     | None => True
     end
  /\ (status = Some "available" -> Availability.isBooked a = false)
  /\ (status = Some "booked" -> Availability.isBooked a = true).

(** The status filter of the appointment listings: an absent or empty
    parameter selects every status, any other value the appointments
    stored with exactly that status string. *)
Definition statusSelected (status : option string) (a : Appointment.t) : Prop :=
  match status with
  | None | Some "" => True
  | Some s => statusName (Appointment.status a) = s
  end.

(** The appointment [id] as [user] in [role] may see it. *)
Definition visibleTo (user : nat) (role : Role) (a : Appointment.t) : Prop :=
  match role with
  | student => Appointment.student a = user
  | professor => Appointment.professor a = user
  end.

Definition okAppointments (docs : list (nat * Appointment.t)) : Response :=
  {| statusCode := 200; success := true; text := None;
     data := AppointmentDocs docs |}.

Definition appointmentFound (id : nat) (a : Appointment.t) : Response :=
  {| statusCode := 200; success := true; text := None;
     data := AppointmentDoc id a |}.

Definition morning : Availability.t := newSlot 1 oct4 "10:00" "11:00".

Definition drYang : User :=
  {| name := "Dr Yang"; email := "yang@college.edu"; role := professor;
     department := Some "Mathematics" |}.

(** The college with a second professor, Dr Yang (user 4), who offers
    nothing, after Alice booked slot 0 of Dr Grey. *)
Definition faculty : Db :=
  {| users := <[4 := drYang]> people;
     availabilities := availabilities bookedCampus;
     appointments := appointments bookedCampus |}.

(** Notes of 501 characters, which [isLength({ max: 500 })] refuses. *)
Definition longNotes : Notes :=
  {| trimmed := string_of_list_ascii (repeat "x"%char 501);
     withinLimit := false |}.

(** A week date: ISO 8601, and not a date [new Date] parses. *)
Definition weekDate : DateField := IsoUnparsed "2024-W40-5".

Definition afternoon : CreateSlot.t :=
  {| CreateSlot.date := IsoDate oct4; CreateSlot.startTime := "14:00";
     CreateSlot.endTime := "15:00" |}.

(* ===================================================================== *)
(** ** Lookups *)
(* ===================================================================== *)

Lemma head_Some_elem {A} (l : list A) (x : A) : head l = Some x -> x ∈ l.
Proof. destruct l; simpl; [done|]. intros [= ->]. left. Qed.

Section Find.
Variables (q : AvailabilityQuery) (db : Db).

Lemma select_spec (kv : nat * Availability.t) :
  kv ∈ selectAvailabilities q db <->
  availabilities db !! kv.1 = Some kv.2 /\ satisfies q kv = true.
Proof.
  unfold selectAvailabilities.
  rewrite list_elem_of_In, filter_In, <- list_elem_of_In.
  destruct kv as [k a]. simpl. by rewrite elem_of_map_to_list.
Qed.

Lemma findOne_Some (kv : nat * Availability.t) :
  head (selectAvailabilities q db) = Some kv ->
  availabilities db !! kv.1 = Some kv.2 /\ satisfies q kv = true.
Proof. intros H. by apply select_spec, head_Some_elem. Qed.

Lemma findOne_None (k : nat) (a : Availability.t) :
  head (selectAvailabilities q db) = None ->
  availabilities db !! k = Some a -> satisfies q (k, a) = false.
Proof.
  intros H Hk. destruct (satisfies q (k, a)) eqn:E; [|done].
  assert ((k, a) ∈ selectAvailabilities q db) as Hin by by apply select_spec.
  destruct (selectAvailabilities q db); [by apply elem_of_nil in Hin | done].
Qed.
End Find.

Lemma satisfies_byId (i k : nat) (a : Availability.t) :
  satisfies (byId i) (k, a) = Nat.eqb k i.
Proof. unfold satisfies, byId, holds. simpl. by rewrite !andb_true_r. Qed.

(** [findById] is the lookup of the key. *)
Lemma findById_spec (db : Db) (i : nat) :
  head (selectAvailabilities (byId i) db)
  = (fun a => (i, a)) <$> availabilities db !! i.
Proof.
  destruct (head (selectAvailabilities (byId i) db)) as [[k a]|] eqn:E.
  - apply findOne_Some in E as [Hk Hs]. simpl in *.
    rewrite satisfies_byId in Hs. apply Nat.eqb_eq in Hs as ->. by rewrite Hk.
  - destruct (availabilities db !! i) as [a|] eqn:Hi; [|done].
    eapply findOne_None in E; [|done].
    by rewrite satisfies_byId, Nat.eqb_refl in E.
Qed.

(* ===================================================================== *)
(** ** The time pattern *)
(* ===================================================================== *)

Lemma ascii_eqb_code (a b : ascii) :
  Ascii.eqb a b = (N_of_ascii a =? N_of_ascii b)%N.
Proof.
  destruct (Ascii.eqb_spec a b) as [->|Hne].
  - by rewrite N.eqb_refl.
  - symmetry. apply N.eqb_neq. intros H. apply Hne.
    by rewrite <- (ascii_N_embedding a), <- (ascii_N_embedding b), H.
Qed.

Ltac code_step :=
  first
    [ progress cbn [Regex.residuals flat_map app existsb Regex.is_empty orb andb]
    | progress unfold Regex.in_range
    | progress (change (N_of_ascii "0") with 48%N;
                change (N_of_ascii "1") with 49%N;
                change (N_of_ascii "2") with 50%N;
                change (N_of_ascii "3") with 51%N;
                change (N_of_ascii "5") with 53%N;
                change (N_of_ascii "9") with 57%N;
                change (N_of_ascii ":") with 58%N)
    | match goal with
      | |- context [Ascii.eqb ?x ?y] => rewrite (ascii_eqb_code x y)
      | |- context [(?x <=? ?y)%N] => destruct (N.leb_spec x y)
      | |- context [(?x =? ?y)%N] => destruct (N.eqb_spec x y)
      end ].

(** The validators' pattern accepts exactly the strings that denote a time
    of day: one or two hour digits. *)
Lemma timePattern_denotesTime (s : string) :
  Regex.test timePattern s = denotesTime s.
Proof.
  destruct s as [|a [|b [|c [|d [|e [|f s]]]]]];
    unfold denotesTime, timeOfDay, Regex.test, timePattern, digitValue.
  all: repeat code_step.
  all: try reflexivity; try lia.
Qed.

Example timePattern_examples :
  Regex.test timePattern "09:30" = true
  /\ Regex.test timePattern "9:30" = true
  /\ Regex.test timePattern "23:59" = true
  /\ Regex.test timePattern "24:00" = false
  /\ Regex.test timePattern "12:60" = false
  /\ Regex.test timePattern "12:3" = false
  /\ Regex.test timePattern "12:30 " = false.
Proof. repeat split; reflexivity. Qed.

Example timeOfDay_examples :
  timeOfDay "9:05" = Some 545%N /\ timeOfDay "23:59" = Some 1439%N
  /\ timeOfDay "7h30" = None
  /\ chronologicallyAfter "10:00" "9:00" = true
  /\ String.ltb "10:00" "9:00" = true.
Proof. repeat split; reflexivity. Qed.

Example includes_examples :
  includes "Availability validation failed: End time must be after start time"
    "End time must be after start time" = true
  /\ includes "Cast failed" "End time must be after start time" = false.
Proof. split; reflexivity. Qed.

(** Every string of the form HH:MM passes the validators. *)
Lemma isHHMM_matches (s : string) :
  isHHMM s = true -> Regex.test timePattern s = true.
Proof.
  rewrite timePattern_denotesTime. unfold isHHMM, denotesTime.
  by destruct (timeOfDay s).
Qed.

(* ===================================================================== *)
(** ** BookSlot *)
(* ===================================================================== *)

Lemma bookSlot_rejects_booked
    (db : Db) (user id : nat) (body : BookSlot.t) (now : Z)
    (slot : Availability.t) :
  BookSlot.validationResult body = [] ->
  BookSlot.availabilityId body = MongoId id ->
  availabilities db !! id = Some slot ->
  Availability.isBooked slot = true ->
  respond (bookSlot user body now) db = (Some alreadyBooked, db).
Proof.
  intros Hv Hid Hs Hb. unfold respond, bookSlot. rewrite Hv, Hid. cbn.
  rewrite findById_spec, Hs. cbn. by rewrite Hb.
Qed.

Lemma validationResult_notes (body : BookSlot.t) (id : nat) :
  BookSlot.availabilityId body = MongoId id ->
  BookSlot.validationResult body =
    match BookSlot.notes body with
    | Some n => if withinLimit n then []
                else ["Notes cannot exceed 500 characters"]
    | None => []
    end.
Proof.
  intros Hid. unfold BookSlot.validationResult. rewrite Hid. simpl.
  destruct (BookSlot.notes body) as [n|]; [|done]. by destruct (withinLimit n).
Qed.

(** C2 (amended). A BookSlot request on an existing slot whose [isBooked]
    flag is set is answered 400 and neither the Availability nor the
    Appointment collection is changed. The answer is "This time slot is
    already booked" (Conflict) when the notes pass the length validator
    of the route, and "Validation errors" with the validator's message
    when they do not: the validators run before the slot is looked at. *)
Theorem bookSlot_booked_is_refused
    (db : Db) (user id : nat) (body : BookSlot.t) (now : Z)
    (slot : Availability.t) :
  BookSlot.availabilityId body = MongoId id ->
  availabilities db !! id = Some slot ->
  Availability.isBooked slot = true ->
  exists r,
    respond (bookSlot user body now) db = (Some r, db)
    /\ statusCode r = 400 /\ success r = false
    /\ ((forall n, BookSlot.notes body = Some n -> withinLimit n = true) ->
          r = alreadyBooked)
    /\ (forall n, BookSlot.notes body = Some n -> withinLimit n = false ->
          r = validationFailure ["Notes cannot exceed 500 characters"]).
Proof.
  intros Hid Hslot Hbooked.
  pose proof (validationResult_notes body id Hid) as Hv.
  destruct (BookSlot.notes body) as [n|] eqn:Hn;
    [destruct (withinLimit n) eqn:Hlen|].
  - (* the notes pass: the slot is read and its flag is set *)
    exists alreadyBooked.
    split; [by apply (bookSlot_rejects_booked db user id body now slot)|].
    split; [done|]. split; [done|]. split; [done|].
    intros n' [= <-]. congruence.
  - (* the notes are too long: the handler returns at its first statement *)
    exists (validationFailure ["Notes cannot exceed 500 characters"]).
    split; [unfold respond, bookSlot; by rewrite Hv|].
    split; [done|]. split; [done|]. split; [|done].
    intros Hall. specialize (Hall n eq_refl). congruence.
  - exists alreadyBooked.
    split; [by apply (bookSlot_rejects_booked db user id body now slot)|].
    split; [done|]. split; [done|]. split; [done|]. intros n' [=].
Qed.

(** What the past check of BookSlot looks at. For a validated request on
    an existing unbooked slot it compares the stored [date] alone with
    the clock: the request is answered 400 "Cannot book past time slots",
    with nothing written, when the date is before now, hence whenever
    the start moment is before now; and a slot whose date is not before
    now is never answered that way. *)
Lemma bookSlot_past_check
    (db : Db) (user id : nat) (body : BookSlot.t) (now : Z)
    (slot : Availability.t) :
  BookSlot.validationResult body = [] ->
  BookSlot.availabilityId body = MongoId id ->
  availabilities db !! id = Some slot ->
  Availability.isBooked slot = false ->
  ((Availability.date slot < now)%Z ->
     respond (bookSlot user body now) db = (Some pastSlot, db))
  /\ (forall t, startMoment slot = Some t -> (t < now)%Z ->
        respond (bookSlot user body now) db = (Some pastSlot, db))
  /\ ((now <= Availability.date slot)%Z ->
        (respond (bookSlot user body now) db).1 <> Some pastSlot).
Proof.
  intros Hv Hid Hs Hb.
  assert (Hpast : (Availability.date slot < now)%Z ->
            respond (bookSlot user body now) db = (Some pastSlot, db)).
  { intros Hlt. unfold respond, bookSlot. rewrite Hv, Hid. cbn.
    rewrite findById_spec, Hs. cbn. rewrite Hb.
    apply Z.ltb_lt in Hlt. by rewrite Hlt. }
  split; [done|]. split.
  - intros t Ht Hlt. apply Hpast. unfold startMoment in Ht.
    destruct (timeOfDay _); [|done]. injection Ht as <-. lia.
  - intros Hge. unfold respond, bookSlot. rewrite Hv, Hid. cbn.
    rewrite findById_spec, Hs. cbn. rewrite Hb.
    apply Z.ltb_ge in Hge. rewrite Hge.
    destruct (users db !! Availability.professor slot); cbn.
    + rewrite Hs. cbn. discriminate.
    + discriminate.
Qed.

(* ===================================================================== *)
(** ** ListAvailableSlotsForProfessor *)
(* ===================================================================== *)

#[global] Instance SortKeyLe_total : Total SortKeyLe.
Proof.
  intros x y. unfold SortKeyLe, sortKeyLe.
  destruct (Z.ltb_spec (Availability.date x.2) (Availability.date y.2));
    [by left|].
  destruct (Z.ltb_spec (Availability.date y.2) (Availability.date x.2));
    [by right|].
  assert (Availability.date x.2 = Availability.date y.2) as -> by lia.
  rewrite Z.eqb_refl. simpl.
  apply String.leb_total.
Qed.

Lemma NoDup_List_filter {A} (f : A -> bool) (l : list A) :
  NoDup l -> NoDup (List.filter f l).
Proof.
  induction 1 as [|x l Hx Hl IH]; simpl; [constructor|].
  destruct (f x); [|done]. constructor; [|done].
  rewrite list_elem_of_In, filter_In, <- list_elem_of_In. tauto.
Qed.

Lemma satisfies_listing (professorId : nat) (date : option Z) (now : Z)
    (k : nat) (a : Availability.t) :
  let query :=
    {| q_id := None; q_professor := Some professorId;
       q_date := Some (DateGte now);
       q_startTime := None; q_endTime := None; q_isBooked := Some false |} in
  satisfies (match date with
             | Some d => set_date (DateEq d) query
             | None => query
             end) (k, a) = true
  <-> listed professorId date now a.
Proof.
  unfold listed, satisfies, holds. destruct date as [d|]; simpl;
    rewrite !andb_true_r, !andb_true_iff, Nat.eqb_eq;
    destruct (Availability.isBooked a); simpl;
    rewrite ?Z.eqb_eq, ?Z.leb_le; intuition congruence.
Qed.

(** What the listing answers for a well-formed id and a [date] parameter
    that is absent or parses. *)
Lemma listing_exact
    (db : Db) (professorId : nat) (date : option Z) (now : Z) :
  (~ isProfessor db professorId ->
     respond (listAvailableSlotsForProfessor
                (CastId professorId) (dateParam date) now) db
     = (Some (failure 404 "Professor not found"), db))
  /\ (isProfessor db professorId ->
      exists docs,
        respond (listAvailableSlotsForProfessor
                   (CastId professorId) (dateParam date) now) db
        = (Some (okList docs), db)
        /\ NoDup docs
        /\ Sorted SortKeyLe docs
        /\ forall k a, (k, a) ∈ docs <->
             availabilities db !! k = Some a
             /\ listed professorId date now a).
Proof.
  split.
  - intros Hno. unfold respond, listAvailableSlotsForProfessor. cbn.
    destruct (users db !! professorId) as [u|] eqn:Hu; [|done].
    destruct (role u) eqn:Hr; [done|]. destruct Hno. by exists u.
  - intros (u & Hu & Hr).
    set (query :=
      {| q_id := None; q_professor := Some professorId;
         q_date := Some (DateGte now);
         q_startTime := None; q_endTime := None; q_isBooked := Some false |}).
    exists (sortByDateStart
              (selectAvailabilities
                 (match date with
                  | Some d => set_date (DateEq d) query
                  | None => query
                  end) db)).
    split; [|split; [|split]].
    + unfold respond, listAvailableSlotsForProfessor. cbn.
      rewrite Hu, Hr. destruct date; cbn; reflexivity.
    + unfold sortByDateStart. rewrite merge_sort_Permutation.
      unfold selectAvailabilities. apply NoDup_List_filter, NoDup_map_to_list.
    + apply (Sorted_merge_sort SortKeyLe).
    + intros k a. unfold sortByDateStart. rewrite merge_sort_Permutation.
      rewrite select_spec. simpl.
      by rewrite <- (satisfies_listing professorId date now k a).
Qed.


(* ===================================================================== *)
(** ** CreateSlot *)
(* ===================================================================== *)

Lemma validator_nil (ok : bool) (m : string) :
  validator ok m = [] <-> ok = true.
Proof. by destruct ok. Qed.

Lemma createSlot_validation_passes (body : CreateSlot.t) :
  CreateSlot.validationResult body = [] <->
  isISO8601 (CreateSlot.date body) = true
  /\ Regex.test timePattern (CreateSlot.startTime body) = true
  /\ Regex.test timePattern (CreateSlot.endTime body) = true.
Proof.
  unfold CreateSlot.validationResult.
  rewrite !app_nil, !validator_nil. tauto.
Qed.

Lemma satisfies_duplicateQuery (user : nat) (date : Z) (s e : string)
    (k : nat) (a : Availability.t) :
  satisfies (duplicateQuery user date s e) (k, a) = true
  <-> sameSlot user date s e a.
Proof.
  unfold sameSlot, satisfies, holds. simpl.
  rewrite !andb_true_r, !andb_true_iff, Nat.eqb_eq, Z.eqb_eq, !String.eqb_eq.
  tauto.
Qed.

Section Creation.
Variables (db : Db) (user : nat) (date : Z) (startTime endTime : string).

Let body : CreateSlot.t :=
  {| CreateSlot.date := IsoDate date;
     CreateSlot.startTime := startTime;
     CreateSlot.endTime := endTime |}.

Hypothesis valid : CreateSlot.validationResult body = [].

Lemma createSlot_duplicate (k : nat) (a : Availability.t) :
  availabilities db !! k = Some a ->
  sameSlot user date startTime endTime a ->
  respond (createSlot user body) db
  = (Some (failure 400 "This time slot already exists"), db).
Proof using valid.
  intros Hk Hsame. unfold respond, createSlot. rewrite valid. cbn.
  fold (duplicateQuery user date startTime endTime).
  destruct (head _) as [kv|] eqn:E; [done|].
  eapply findOne_None in E; [|exact Hk].
  apply (satisfies_duplicateQuery user date startTime endTime k a) in Hsame.
  congruence.
Qed.

Hypothesis fresh_slot :
  forall k a, availabilities db !! k = Some a ->
              ~ sameSlot user date startTime endTime a.

Lemma createSlot_no_duplicate :
  head (selectAvailabilities
          (duplicateQuery user date startTime endTime) db) = None.
Proof using fresh_slot.
  destruct (head _) as [[k a]|] eqn:E; [|done].
  apply findOne_Some in E as [Hk Hs]. simpl in *.
  apply satisfies_duplicateQuery in Hs. by destruct (fresh_slot k a).
Qed.

Lemma createSlot_persists :
  chronologicallyAfter endTime startTime = true ->
  let id := fresh (dom (availabilities db)) in
  availabilities db !! id = None
  /\ respond (createSlot user body) db
     = (Some (created id (newSlot user date startTime endTime)),
        withAvailabilities
          (<[id := newSlot user date startTime endTime]> (availabilities db))
          db).
Proof using valid fresh_slot.
  intros Hord id. split.
  - apply not_elem_of_dom, is_fresh.
  - unfold respond, createSlot. rewrite valid. cbn.
    fold (duplicateQuery user date startTime endTime).
    rewrite createSlot_no_duplicate. cbn.
    unfold Availability_preSave. cbn. by rewrite Hord.
Qed.

Lemma createSlot_unordered :
  chronologicallyAfter endTime startTime = false ->
  respond (createSlot user body) db
  = (Some (failure 400 "End time must be after start time"), db).
Proof using valid fresh_slot.
  intros Hord. unfold respond, createSlot. rewrite valid. cbn.
  fold (duplicateQuery user date startTime endTime).
  rewrite createSlot_no_duplicate. cbn.
  unfold Availability_preSave. cbn. by rewrite Hord.
Qed.
End Creation.

(** A CreateSlot request whose date [new Date] parses, that passes the
    validators and whose end is after its start: if a stored slot has the
    same professor, date, start and end, the request is answered 400
    "This time slot already exists" and the database is unchanged;
    otherwise a new slot with these four fields and [isBooked = false] is
    stored under an id that was not in use and returned with status
    201. *)
Lemma createSlot_valid_call
    (db : Db) (user : nat) (date : Z) (startTime endTime : string) :
  let body := {| CreateSlot.date := IsoDate date;
                 CreateSlot.startTime := startTime;
                 CreateSlot.endTime := endTime |} in
  CreateSlot.validationResult body = [] ->
  chronologicallyAfter endTime startTime = true ->
  ((exists k a, availabilities db !! k = Some a
                /\ sameSlot user date startTime endTime a) ->
     respond (createSlot user body) db
     = (Some (failure 400 "This time slot already exists"), db))
  /\ ((forall k a, availabilities db !! k = Some a ->
                   ~ sameSlot user date startTime endTime a) ->
      exists id doc,
        availabilities db !! id = None
        /\ Availability.isBooked doc = false
        /\ sameSlot user date startTime endTime doc
        /\ respond (createSlot user body) db
           = (Some (created id doc),
              withAvailabilities (<[id := doc]> (availabilities db)) db)).
Proof.
  intros body Hvalid Hord. split.
  - intros (k & a & Hk & Hsame). by eapply createSlot_duplicate.
  - intros Hfresh.
    destruct (createSlot_persists db user date startTime endTime Hvalid Hfresh Hord)
      as [Hid Hrun].
    exists (fresh (dom (availabilities db))),
           (newSlot user date startTime endTime).
    by repeat split.
Qed.

(** A date that passes the [isISO8601] validator and that [new Date]
    does not parse: whatever the times and the stored slots, the
    duplicate check rejects and the request is answered 500, with nothing
    stored. *)
Lemma createSlot_unparsed_date
    (db : Db) (user : nat) (raw startTime endTime : string) :
  let body := {| CreateSlot.date := IsoUnparsed raw;
                 CreateSlot.startTime := startTime;
                 CreateSlot.endTime := endTime |} in
  CreateSlot.validationResult body = [] ->
  respond (createSlot user body) db
  = (Some (failure 500 "Error creating availability slot"), db).
Proof. intros body Hv. unfold respond, createSlot. by rewrite Hv. Qed.

(** C6. A CreateSlot call that is valid, in that it passes the route's
    validators and its end is after its start, is to be refused as a
    duplicate or stored. The week date 2024-W40-5 passes the [isISO8601]
    validator and [new Date] does not parse it: the call for 10:00-11:00
    on that date passes every validator, no stored slot equals it, and it
    is answered 500 "Error creating availability slot" with nothing
    stored, neither Conflict nor a new slot. *)
Theorem createSlot_week_date_fails :
  let body := {| CreateSlot.date := weekDate;
                 CreateSlot.startTime := "10:00";
                 CreateSlot.endTime := "11:00" |} in
  CreateSlot.validationResult body = []
  /\ chronologicallyAfter "11:00" "10:00" = true
  /\ respond (createSlot 1 body) campus
     = (Some (failure 500 "Error creating availability slot"), campus).
Proof. repeat split; vm_compute; reflexivity. Qed.

(** C5 (amended). A CreateSlot request whose [startTime] or [endTime] does
    not denote a time of day, one or two hour digits for an hour up to 23,
    a colon and two minute digits up to 59, is answered 400 "Validation
    errors"; a request whose end is not strictly after its start as times
    of day is answered with a failure, of status 400 unless its date is
    one that passes the validator and [new Date] does not parse; in both
    cases nothing is stored. *)
Theorem createSlot_rejects_malformed_or_unordered
    (db : Db) (user : nat) (body : CreateSlot.t) :
  (denotesTime (CreateSlot.startTime body) = false
   \/ denotesTime (CreateSlot.endTime body) = false ->
     CreateSlot.validationResult body <> []
     /\ respond (createSlot user body) db
        = (Some (validationFailure (CreateSlot.validationResult body)), db))
  /\ (chronologicallyAfter (CreateSlot.endTime body) (CreateSlot.startTime body)
      = false ->
      exists r, respond (createSlot user body) db = (Some r, db)
                /\ success r = false
                /\ ((forall raw, CreateSlot.date body <> IsoUnparsed raw) ->
                    statusCode r = 400)).
Proof.
  split.
  - intros Hbad.
    assert (CreateSlot.validationResult body <> []) as Hne.
    { rewrite createSlot_validation_passes, !timePattern_denotesTime.
      intros (_ & Hs & He). destruct Hbad; congruence. }
    split; [done|]. unfold respond, createSlot.
    by destruct (CreateSlot.validationResult body).
  - intros Hord.
    destruct (CreateSlot.validationResult body) as [|e errors] eqn:Hv.
    + destruct body as [[date|raw|raw] startTime endTime]; simpl in *.
      * unfold respond, createSlot. rewrite Hv. cbn.
        destruct (head _) as [kv|]; cbn; [by eexists|].
        unfold Availability_preSave. cbn. rewrite Hord. cbn. by eexists.
      * eexists. split; [by apply createSlot_unparsed_date|].
        split; [done|]. intros Hparsed. by destruct (Hparsed raw).
      * apply createSlot_validation_passes in Hv as [? _]. done.
    + unfold respond, createSlot. rewrite Hv. cbn. by eexists.
Qed.


(* ===================================================================== *)
(** ** CancelAppointment and UpdateAppointmentStatus *)
(* ===================================================================== *)

Section Cancel.
Variables (db : Db) (user id : nat) (a : Appointment.t).
Hypothesis stored : appointments db !! id = Some a.
Hypothesis owner : Appointment.professor a = user.

Lemma cancel_already_cancelled :
  Appointment.status a = cancelled ->
  respond (cancelAppointment user (CastId id)) db = (Some alreadyCancelled, db).
Proof using stored owner.
  intros Hst. unfold respond, cancelAppointment. cbn.
  rewrite stored, owner, Nat.eqb_refl. cbn. by rewrite Hst.
Qed.

Lemma cancel_frees_slot (slot : Availability.t) :
  Appointment.status a <> cancelled ->
  availabilities db !! Appointment.availability a = Some slot ->
  respond (cancelAppointment user (CastId id)) db
  = (Some (cancelledOk id a),
     {| users := users db;
        availabilities :=
          <[Appointment.availability a := Availability.assign false None slot]>
            (availabilities db);
        appointments :=
          <[id := Appointment.assign cancelled a]> (appointments db) |}).
Proof using stored owner.
  intros Hst Hslot. unfold respond, cancelAppointment. cbn.
  rewrite stored, owner, Nat.eqb_refl. cbn.
  rewrite findById_spec, Hslot. cbn.
  destruct (Appointment.status a) eqn:E; [| |done|]; cbn;
    rewrite stored; cbn; rewrite findById_spec; cbn; rewrite Hslot; cbn;
    rewrite Hslot; reflexivity.
Qed.

Lemma cancel_missing_slot :
  Appointment.status a <> cancelled ->
  availabilities db !! Appointment.availability a = None ->
  respond (cancelAppointment user (CastId id)) db
  = (Some (failure 500 "Error cancelling appointment"),
     withAppointments
       (<[id := Appointment.assign cancelled a]> (appointments db)) db).
Proof using stored owner.
  intros Hst Hslot. unfold respond, cancelAppointment. cbn.
  rewrite stored, owner, Nat.eqb_refl. cbn.
  rewrite findById_spec, Hslot. cbn.
  destruct (Appointment.status a) eqn:E; [| |done|]; cbn;
    rewrite stored; reflexivity.
Qed.

Lemma updateStatus_cancelled :
  respond (updateAppointmentStatus user (CastId id) "cancelled") db
  = (Some (statusUpdated id (Appointment.assign cancelled a)),
     {| users := users db;
        availabilities :=
          release (Appointment.availability a) (availabilities db);
        appointments :=
          <[id := Appointment.assign cancelled a]> (appointments db) |}).
Proof using stored owner.
  unfold respond, updateAppointmentStatus, release. cbn.
  rewrite stored, owner, Nat.eqb_refl. cbn. rewrite stored. cbn.
  rewrite findById_spec. cbn.
  destruct (availabilities db !! Appointment.availability a) as [slot|] eqn:E;
    cbn; [rewrite E|]; reflexivity.
Qed.

Lemma updateStatus_other (s : string) (st : Status) :
  statusOfString s = Some st -> st <> cancelled ->
  respond (updateAppointmentStatus user (CastId id) s) db
  = (Some (statusUpdated id (Appointment.assign st a)),
     withAppointments (<[id := Appointment.assign st a]> (appointments db)) db).
Proof using stored owner.
  intros Hs Hst. unfold respond, updateAppointmentStatus. rewrite Hs. cbn.
  rewrite stored, owner, Nat.eqb_refl. cbn. rewrite stored. cbn.
  by destruct st.
Qed.
End Cancel.

(** C9. UpdateAppointmentStatus has no already-cancelled check: on an
    appointment of the calling professor that is already cancelled, the
    status "cancelled" is answered 200 and the referenced slot, when it is
    stored, is reset again: whoever holds it, it is stored afterwards
    with [isBooked = false] and [bookedBy = null], its professor, date
    and times untouched. CancelAppointment on the same appointment is
    answered 400 "Appointment is already cancelled" and changes
    nothing. *)
Theorem updateStatus_recancels
    (db : Db) (user id : nat) (a : Appointment.t) :
  appointments db !! id = Some a ->
  Appointment.professor a = user ->
  Appointment.status a = cancelled ->
  (exists r db',
     respond (updateAppointmentStatus user (CastId id) "cancelled") db
     = (Some r, db')
     /\ r = statusUpdated id (Appointment.assign cancelled a)
     /\ statusCode r = 200 /\ success r = true
     /\ forall slot,
          availabilities db !! Appointment.availability a = Some slot ->
          exists slot',
            availabilities db' !! Appointment.availability a = Some slot'
            /\ Availability.isBooked slot' = false
            /\ Availability.bookedBy slot' = None
            /\ sameOffer slot slot')
  /\ respond (cancelAppointment user (CastId id)) db = (Some alreadyCancelled, db).
Proof.
  intros Hid Hown Hst. split.
  - eexists _, _. split; [by apply updateStatus_cancelled|].
    split; [done|]. split; [done|]. split; [done|].
    intros slot Hslot. simpl. unfold release. rewrite Hslot.
    exists (Availability.assign false None slot).
    split; [apply lookup_insert_eq|]. by repeat split.
  - by apply (cancel_already_cancelled db user id a).
Qed.

(* ===================================================================== *)
(** ** A successful booking *)
(* ===================================================================== *)

Lemma bookSlot_succeeds
    (db : Db) (user id : nat) (body : BookSlot.t) (now : Z)
    (slot : Availability.t) :
  BookSlot.validationResult body = [] ->
  BookSlot.availabilityId body = MongoId id ->
  openSlot db id slot now ->
  respond (bookSlot user body now) db
  = (Some (booked (fresh (dom (appointments db))) (booking user id slot body)),
     afterBooking db user id slot body).
Proof.
  intros Hv Hid (Hs & Hb & Hnow & [p Hp]).
  unfold respond, bookSlot. rewrite Hv, Hid. cbn.
  rewrite findById_spec, Hs. cbn. rewrite Hb, Hp.
  apply Z.ltb_ge in Hnow. rewrite Hnow. cbn. rewrite Hs. reflexivity.
Qed.

(** What a BookSlot request can do to the database: nothing, or the two
    writes of a successful booking of an unbooked slot. *)
Lemma bookSlot_cases (db : Db) (user : nat) (body : BookSlot.t) (now : Z) :
  (respond (bookSlot user body now) db).2 = db
  \/ exists id slot,
       availabilities db !! id = Some slot
       /\ Availability.isBooked slot = false
       /\ (respond (bookSlot user body now) db).2
          = afterBooking db user id slot body.
Proof.
  unfold respond, bookSlot.
  destruct (BookSlot.validationResult body); cbn; [|by left].
  destruct (BookSlot.availabilityId body) as [id|raw]; cbn; [|by left].
  rewrite findById_spec.
  destruct (availabilities db !! id) as [slot|] eqn:Hs; cbn; [|by left].
  destruct (Availability.isBooked slot) eqn:Hb; cbn; [by left|].
  destruct (Availability.date slot <? now)%Z; cbn; [by left|].
  destruct (users db !! Availability.professor slot); cbn; [|by left].
  rewrite Hs. cbn. right. by exists id, slot.
Qed.


(* ===================================================================== *)
(** ** Requests in flight together *)
(* ===================================================================== *)

Lemma interleave_app {A} (s1 s2 : list bool) (p1 p2 : Prog A) (db : Db) :
  interleave (s1 ++ s2)%list p1 p2 db
  = let '(q1, q2, db') := interleave s1 p1 p2 db in interleave s2 q1 q2 db'.
Proof.
  revert p1 p2 db. induction s1 as [|[] s1 IH]; intros p1 p2 db; simpl.
  - done.
  - destruct (step p1 db). apply IH.
  - destruct (step p2 db). apply IH.
Qed.

(** Given the floor for long enough, a handler runs to its end as [run]
    says. *)
Lemma turns_first {A} (p1 : Prog A) :
  forall db, exists n, forall p2,
    interleave (replicate n true) p1 p2 db
    = (settled (run p1 db).1, p2, (run p1 db).2).
Proof.
  induction p1 as [a|r|e|X op k IH]; intros db;
    try (by exists 0).
  simpl. destruct (exec op db) as [x db'] eqn:E.
  destruct (IH x db') as [n Hn]. exists (S n). intros p2. simpl.
  rewrite E. apply Hn.
Qed.

Lemma turns_second {A} (p2 : Prog A) :
  forall db, exists n, forall p1,
    interleave (replicate n false) p1 p2 db
    = (p1, settled (run p2 db).1, (run p2 db).2).
Proof.
  induction p2 as [a|r|e|X op k IH]; intros db;
    try (by exists 0).
  simpl. destruct (exec op db) as [x db'] eqn:E.
  destruct (IH x db') as [n Hn]. exists (S n). intros p1. simpl.
  rewrite E. apply Hn.
Qed.

(** Serving one request after the other is one of the schedules. *)
Lemma sequential_schedule {A} (p1 p2 : Prog A) (db : Db) :
  exists schedule,
    interleave schedule p1 p2 db
    = (settled (run p1 db).1,
       settled (run p2 (run p1 db).2).1,
       (run p2 (run p1 db).2).2).
Proof.
  destruct (turns_first p1 db) as [n Hn].
  destruct (turns_second p2 (run p1 db).2) as [m Hm].
  exists (replicate n true ++ replicate m false)%list.
  by rewrite interleave_app, Hn, Hm.
Qed.

(* ===================================================================== *)
(** ** The slot/appointment invariant *)
(* ===================================================================== *)

Lemma invariant_no_appointments (db : Db) :
  appointments db = ∅ ->
  (forall k slot, availabilities db !! k = Some slot ->
                  Availability.isBooked slot = false) ->
  invariant db.
Proof.
  intros Hnone Hfree. repeat split.
  - intros Hb. rewrite (Hfree k slot) in Hb; done.
  - intros (i & a & Hi & _). by rewrite Hnone in Hi.
  - intros i j a b Hi. by rewrite Hnone in Hi.
  - intros i a Hi. by rewrite Hnone in Hi.
Qed.

Lemma lookup_release (k k' : nat) (m : gmap nat Availability.t) :
  release k m !! k'
  = if decide (k = k') then Availability.assign false None <$> m !! k
    else m !! k'.
Proof.
  unfold release. destruct (m !! k) as [slot|] eqn:E.
  - rewrite lookup_insert. by case_decide.
  - case_decide; by subst.
Qed.

Lemma fresh_appointment (db : Db) :
  appointments db !! fresh (dom (appointments db)) = None.
Proof. apply not_elem_of_dom, is_fresh. Qed.

Lemma fresh_availability (m : gmap nat Availability.t) :
  m !! fresh (dom m) = None.
Proof. apply not_elem_of_dom, is_fresh. Qed.

Section Preservation.
Variable db : Db.
Hypothesis inv : invariant db.

Lemma invariant_booking (user id : nat) (slot : Availability.t)
    (body : BookSlot.t) :
  availabilities db !! id = Some slot ->
  Availability.isBooked slot = false ->
  invariant (afterBooking db user id slot body).
Proof using inv.
  destruct inv as (Hc & Hx & Ha). intros Hs Hb.
  pose proof (fresh_appointment db) as Hf.
  unfold afterBooking. set (f := fresh (dom (appointments db))) in *.
  assert (Hfree : ~ referenced db id).
  { intros Href. apply (Hc id slot Hs) in Href. congruence. }
  split; [|split].
  - intros k s Hk. simpl in Hk. split.
    + (* a booked slot is referenced *)
      intros Hbk. destruct (decide (id = k)) as [<-|Hne].
      * exists f, (booking user id slot body). simpl.
        rewrite lookup_insert_eq. by repeat split.
      * rewrite lookup_insert_ne in Hk by done.
        apply (Hc k s Hk) in Hbk as (i & a & Hi & Hav & Hact).
        exists i, a. simpl. rewrite lookup_insert_ne; [done|].
        intros <-. congruence.
    + (* a referenced slot is booked *)
      intros (i & a & Hi & Hav & Hact). simpl in Hi.
      destruct (decide (id = k)) as [<-|Hne].
      * rewrite lookup_insert_eq in Hk. by injection Hk as <-.
      * rewrite lookup_insert_ne in Hk by done. apply (Hc k s Hk).
        destruct (decide (f = i)) as [<-|Hfi].
        -- rewrite lookup_insert_eq in Hi. injection Hi as <-.
           simpl in Hav. congruence.
        -- rewrite lookup_insert_ne in Hi by done. by exists i, a.
  - intros i j a b Hi Hj Hai Haj Heq. simpl in Hi, Hj.
    destruct (decide (f = i)) as [<-|Hfi], (decide (f = j)) as [<-|Hfj].
    + done.
    + rewrite lookup_insert_eq in Hi. rewrite lookup_insert_ne in Hj by done.
      injection Hi as <-. simpl in Heq. destruct Hfree. by exists j, b.
    + rewrite lookup_insert_eq in Hj. rewrite lookup_insert_ne in Hi by done.
      injection Hj as <-. simpl in Heq. destruct Hfree. by exists i, a.
    + rewrite lookup_insert_ne in Hi by done.
      rewrite lookup_insert_ne in Hj by done. by eapply Hx.
  - intros i a Hi Hact. simpl in *. apply lookup_insert_is_Some'.
    destruct (decide (f = i)) as [<-|Hfi].
    + rewrite lookup_insert_eq in Hi. injection Hi as <-. by left.
    + rewrite lookup_insert_ne in Hi by done. right. by eapply Ha.
Qed.

Lemma invariant_cancelling (id : nat) (a : Appointment.t) :
  appointments db !! id = Some a ->
  active a ->
  invariant
    {| users := users db;
       availabilities :=
         release (Appointment.availability a) (availabilities db);
       appointments :=
         <[id := Appointment.assign cancelled a]> (appointments db) |}.
Proof using inv.
  destruct inv as (Hc & Hx & Ha). intros Hid Hlive.
  assert (Hold : forall i b,
            <[id := Appointment.assign cancelled a]> (appointments db) !! i
            = Some b -> active b ->
            i <> id /\ appointments db !! i = Some b).
  { intros i b Hi Hact. destruct (decide (id = i)) as [<-|Hne].
    - rewrite lookup_insert_eq in Hi. injection Hi as <-. by destruct Hact.
    - by rewrite lookup_insert_ne in Hi. }
  split; [|split].
  - intros k s Hk. simpl in Hk. rewrite lookup_release in Hk. split.
    + intros Hbk. case_decide as Hav.
      * destruct (availabilities db !! _); [|done].
        injection Hk as <-. done.
      * apply (Hc k s Hk) in Hbk as (i & b & Hi & Hb & Hact).
        exists i, b. simpl. rewrite lookup_insert_ne; [done|].
        intros <-. congruence.
    + intros (i & b & Hi & Hb & Hact). simpl in Hi.
      apply Hold in Hi as [Hne Hi]; [|done].
      case_decide as Hav.
      * destruct Hne. apply (Hx i id b a); done || congruence.
      * apply (Hc k s Hk). by exists i, b.
  - intros i j b c Hi Hj Hb Hc' Heq. simpl in Hi, Hj.
    apply Hold in Hi as [_ Hi]; [|done].
    apply Hold in Hj as [_ Hj]; [|done]. by eapply Hx.
  - intros i b Hi Hact. simpl in *.
    apply Hold in Hi as [_ Hi]; [|done].
    destruct (Ha i b Hi Hact) as [s Hs].
    rewrite lookup_release. case_decide as Hav.
    + rewrite Hav, Hs. by eexists.
    + by eexists.
Qed.

Lemma invariant_creating (doc : Availability.t) :
  Availability.isBooked doc = false ->
  invariant
    (withAvailabilities
       (<[fresh (dom (availabilities db)) := doc]> (availabilities db)) db).
Proof using inv.
  destruct inv as (Hc & Hx & Ha). intros Hb.
  pose proof (fresh_availability (availabilities db)) as Hf.
  set (f := fresh (dom (availabilities db))) in *.
  split; [|split].
  - intros k s Hk. simpl in Hk. split.
    + intros Hbk. destruct (decide (f = k)) as [<-|Hne].
      * rewrite lookup_insert_eq in Hk. injection Hk as <-. congruence.
      * rewrite lookup_insert_ne in Hk by done. by apply (Hc k s Hk).
    + intros (i & a & Hi & Hav & Hact). simpl in Hi.
      destruct (decide (f = k)) as [<-|Hne].
      * destruct (Ha i a Hi Hact) as [s' Hs']. congruence.
      * rewrite lookup_insert_ne in Hk by done. apply (Hc k s Hk).
        by exists i, a.
  - exact Hx.
  - intros i a Hi Hact. simpl in *. apply lookup_insert_is_Some'.
    right. by eapply Ha.
Qed.

Lemma invariant_deleting (id : nat) (slot : Availability.t) :
  availabilities db !! id = Some slot ->
  Availability.isBooked slot = false ->
  invariant (withAvailabilities (delete id (availabilities db)) db).
Proof using inv.
  destruct inv as (Hc & Hx & Ha). intros Hs Hb.
  split; [|split].
  - intros k s Hk. simpl in Hk. apply lookup_delete_Some in Hk as [Hne Hk].
    by apply (Hc k s Hk).
  - exact Hx.
  - intros i a Hi Hact. simpl in *.
    destruct (Ha i a Hi Hact) as [s Hs'].
    exists s. apply lookup_delete_Some. split; [|done].
    intros ->. assert (Availability.isBooked slot = true); [|congruence].
    apply (Hc _ slot Hs). by exists i, a.
Qed.
End Preservation.

Lemma cancelAppointment_cases (db : Db) (user id : nat) :
  (respond (cancelAppointment user (CastId id)) db).2 = db
  \/ exists a,
       appointments db !! id = Some a /\ active a
       /\ (respond (cancelAppointment user (CastId id)) db).2
          = {| users := users db;
               availabilities :=
                 release (Appointment.availability a) (availabilities db);
               appointments :=
                 <[id := Appointment.assign cancelled a]> (appointments db) |}.
Proof.
  destruct (appointments db !! id) as [a|] eqn:Hid.
  - destruct (decide (Appointment.professor a = user)) as [Hown|Hother].
    + destruct (decide (Appointment.status a = cancelled)) as [Hst|Hst].
      * left. by rewrite (cancel_already_cancelled db user id a).
      * right. exists a. split; [done|]. split; [done|]. unfold release.
        destruct (availabilities db !! Appointment.availability a)
          as [slot|] eqn:Hslot.
        -- by rewrite (cancel_frees_slot db user id a Hid Hown slot).
        -- by rewrite (cancel_missing_slot db user id a).
    + left. unfold respond, cancelAppointment. cbn. rewrite Hid.
      apply Nat.eqb_neq in Hother. by rewrite Hother.
  - left. unfold respond, cancelAppointment. cbn. by rewrite Hid.
Qed.

Lemma createSlot_cases (db : Db) (user : nat) (body : CreateSlot.t) :
  (respond (createSlot user body) db).2 = db
  \/ exists doc,
       Availability.isBooked doc = false
       /\ (respond (createSlot user body) db).2
          = withAvailabilities
              (<[fresh (dom (availabilities db)) := doc]> (availabilities db))
              db.
Proof.
  unfold respond, createSlot.
  destruct (CreateSlot.validationResult body); cbn; [|by left].
  destruct (CreateSlot.date body) as [date|raw|raw]; cbn; [|by left..].
  destruct (head _) as [kv|]; cbn; [by left|].
  destruct (Availability_preSave _) as [e|]; cbn.
  - left. by destruct (includes _ _).
  - right. eexists. split; [|reflexivity]. reflexivity.
Qed.

(** A status update whose query cannot cast the id it is given changes
    nothing, whatever the status. *)
Lemma updateStatus_no_cast (db : Db) (user : nat) (raw s : string) :
  (respond (updateAppointmentStatus user (NoCast raw) s) db).2 = db.
Proof.
  unfold respond, updateAppointmentStatus. by destruct (statusOfString s).
Qed.

Lemma deleteSlot_cases (db : Db) (user id : nat) :
  (respond (deleteSlot user (CastId id)) db).2 = db
  \/ exists slot,
       availabilities db !! id = Some slot
       /\ Availability.isBooked slot = false
       /\ (respond (deleteSlot user (CastId id)) db).2
          = withAvailabilities (delete id (availabilities db)) db.
Proof.
  unfold respond, deleteSlot. cbn.
  destruct (head _) as [[k slot]|] eqn:E; cbn; [|by left].
  apply findOne_Some in E as [Hk Hs]. simpl in Hk.
  unfold satisfies, holds in Hs. simpl in Hs.
  rewrite !andb_true_r in Hs. apply andb_true_iff in Hs as [Hid _].
  apply Nat.eqb_eq in Hid as ->.
  destruct (Availability.isBooked slot) eqn:Hb; cbn; [by left|].
  right. by exists slot.
Qed.

(* ===================================================================== *)
(** ** Sequences of requests *)
(* ===================================================================== *)

Lemma serve_invariant (db : Db) (r : Request) :
  isStatusUpdate r = false -> invariant db -> invariant (serve db r).
Proof.
  intros Hr Hinv. unfold serve.
  destruct r as [u b|u [k|raw]|u b now|u [i|raw]|u i s];
    simpl in *; [| | | | | |done].
  - destruct (createSlot_cases db u b) as [->|(doc & Hb & ->)]; [done|].
    by apply invariant_creating.
  - destruct (deleteSlot_cases db u k) as [->|(slot & Hs & Hb & ->)]; [done|].
    by eapply invariant_deleting.
  - exact Hinv.
  - destruct (bookSlot_cases db u b now) as [->|(id & slot & Hs & Hb & ->)];
      [done|]. by apply invariant_booking.
  - destruct (cancelAppointment_cases db u i) as [->|(a & Hi & Hact & ->)];
      [done|]. by apply invariant_cancelling.
  - exact Hinv.
Qed.

(** X20. Creating, deleting, booking and cancelling keep the invariant: from a
    database that satisfies it, every sequence of such requests leads to
    one in which a slot is flagged booked exactly when a non-cancelled
    appointment references it. *)
Theorem consistent_without_status_updates (db : Db) (rs : list Request) :
  invariant db ->
  forallb (fun r => negb (isStatusUpdate r)) rs = true ->
  invariant (serveAll db rs) /\ consistent (serveAll db rs).
Proof.
  revert db. induction rs as [|r rs IH]; intros db Hinv Hrs; simpl in *.
  - split; [done|]. by destruct Hinv.
  - apply andb_true_iff in Hrs as [Hr Hrs]. apply negb_true_iff in Hr.
    apply IH; [|done]. by apply serve_invariant.
Qed.

(* ===================================================================== *)
(** ** A small college *)
(* ===================================================================== *)

Lemma campus_invariant : invariant campus.
Proof.
  apply invariant_no_appointments; [done|].
  intros k slot Hk. unfold campus in Hk. simpl in Hk.
  apply lookup_singleton_Some in Hk as [_ <-]. done.
Qed.

Example e2e_listing :
  (respond (listAvailableSlotsForProfessor (CastId 1) NoDate dayBefore)
     (serveAll campus e2e)).1
  = Some (okList [(0, newSlot 1 oct4 "10:00" "11:00")]).
Proof. vm_compute. reflexivity. Qed.

Example e2e_statuses :
  Appointment.status <$> appointments (serveAll campus e2e) !! 0 = Some cancelled
  /\ Appointment.status <$> appointments (serveAll campus e2e) !! 1 = Some confirmed.
Proof. split; vm_compute; reflexivity. Qed.

(* ===================================================================== *)
(** ** Where the code departs from the specification *)
(* ===================================================================== *)

(** C1. With UpdateAppointmentStatus among the operations the invariant is
    lost. From the consistent [campus] the requests of [recancel] lead to
    a database in which slot 0 is flagged unbooked while Bob's confirmed
    appointment references it. *)
Theorem status_update_breaks_consistency :
  consistent campus
  /\ Availability.isBooked <$> availabilities (serveAll campus recancel) !! 0
     = Some false
  /\ referenced (serveAll campus recancel) 0
  /\ ~ consistent (serveAll campus recancel).
Proof.
  assert (Hslot : availabilities (serveAll campus recancel) !! 0
                  = Some (newSlot 1 oct4 "10:00" "11:00"))
    by (vm_compute; reflexivity).
  assert (Href : referenced (serveAll campus recancel) 0).
  { exists 1, (booking 3 0 (newSlot 1 oct4 "10:00" "11:00") (request 0)).
    split; [vm_compute; reflexivity|]. split; [reflexivity|]. discriminate. }
  split; [apply campus_invariant|]. split; [by rewrite Hslot|].
  split; [done|]. intros Hc. apply (Hc 0 _ Hslot) in Href. discriminate.
Qed.

(** The same route breaks the invariant the other way round as well: an
    appointment set from cancelled back to confirmed references a slot
    that was freed. *)
Lemma status_update_revives_appointment :
  ~ consistent (serveAll campus uncancel).
Proof.
  assert (Hslot : availabilities (serveAll campus uncancel) !! 0
                  = Some (newSlot 1 oct4 "10:00" "11:00"))
    by (vm_compute; reflexivity).
  intros Hc. assert (Href : referenced (serveAll campus uncancel) 0).
  { exists 0, (booking 2 0 (newSlot 1 oct4 "10:00" "11:00") (request 0)).
    split; [vm_compute; reflexivity|]. split; [reflexivity|]. discriminate. }
  apply (Hc 0 _ Hslot) in Href. discriminate.
Qed.

(** C7. When the slot an appointment references is gone,
    CancelAppointment stores the cancelled status and is then answered 500
    "Error cancelling appointment": the populated [availability] is
    [null] and reading its [_id] throws before the guarded reset is
    reached. The status route, which looks the slot up by the stored id,
    answers 200 on the same database. *)
Theorem cancel_fails_when_slot_is_gone :
  appointments orphaned !! 0 = Some aliceBooking
  /\ availabilities orphaned !! Appointment.availability aliceBooking = None
  /\ respond (cancelAppointment 1 (CastId 0)) orphaned
     = (Some (failure 500 "Error cancelling appointment"),
        withAppointments
          (<[0 := Appointment.assign cancelled aliceBooking]>
             (appointments orphaned)) orphaned)
  /\ (respond (updateAppointmentStatus 1 (CastId 0) "cancelled") orphaned).1
     = Some (statusUpdated 0 (Appointment.assign cancelled aliceBooking)).
Proof. repeat split; vm_compute; reflexivity. Qed.


(** C3. The past check of BookSlot is meant to refuse a slot whose start
    (date plus startTime) is before the current moment and no other; the
    code compares the stored date alone. At noon of 4 October the
    unbooked slot of that day that starts at 23:00 has not started, and
    booking it is answered 400 "Cannot book past time slots", with no
    appointment created. *)
Theorem bookSlot_rejects_slot_starting_later_today :
  availabilities lateCampus !! 0 = Some (newSlot 1 oct4 "23:00" "23:30")
  /\ Availability.isBooked (newSlot 1 oct4 "23:00" "23:30") = false
  /\ startMoment (newSlot 1 oct4 "23:00" "23:30") = Some (oct4 + 23 * hour)%Z
  /\ (noon < oct4 + 23 * hour)%Z
  /\ respond (bookSlot 2 (request 0) noon) lateCampus
     = (Some pastSlot, lateCampus)
  /\ appointments lateCampus = ∅.
Proof. repeat split; vm_compute; reflexivity. Qed.

(** C2 fails as stated: a request for a booked slot whose notes are too
    long is answered "Validation errors", not "already booked". The
    validators answer before the slot is looked at. *)
Lemma bookSlot_booked_long_notes :
  availabilities bookedCampus !! 0 = Some takenSlot
  /\ Availability.isBooked takenSlot = true
  /\ String.length (trimmed longNotes) = 501
  /\ respond (bookSlot 3 {| BookSlot.availabilityId := MongoId 0;
                            BookSlot.notes := Some longNotes |} dayBefore)
       bookedCampus
     = (Some (validationFailure ["Notes cannot exceed 500 characters"]),
        bookedCampus)
  /\ validationFailure ["Notes cannot exceed 500 characters"] <> alreadyBooked.
Proof. repeat split; vm_compute; try reflexivity. discriminate. Qed.


(** With the [date] parameter a slot dated a week ago is listed. *)
Lemma listing_by_date_returns_past_slot :
  (oct4 < oct4 + 7 * day)%Z
  /\ respond (listAvailableSlotsForProfessor
                (CastId 1) (DateAt oct4) (oct4 + 7 * day)) campus
     = (Some (okList [(0, newSlot 1 oct4 "10:00" "11:00")]), campus).
Proof. split; vm_compute; reflexivity. Qed.

(** An id that is not an ObjectId, or a date that does not parse, makes
    the query of the listing reject: the answer is 500. The professor is
    looked up first, so an unknown professor is still answered 404. *)
Lemma listing_cast_failures (db : Db) (raw : string) (date : DateParam)
    (professorId : nat) (now : Z) :
  respond (listAvailableSlotsForProfessor (NoCast raw) date now) db
  = (Some (failure 500 "Error fetching professor availability"), db)
  /\ (isProfessor db professorId ->
      respond (listAvailableSlotsForProfessor
                 (CastId professorId) (InvalidDate raw) now) db
      = (Some (failure 500 "Error fetching professor availability"), db))
  /\ (~ isProfessor db professorId ->
      respond (listAvailableSlotsForProfessor
                 (CastId professorId) (InvalidDate raw) now) db
      = (Some (failure 404 "Professor not found"), db)).
Proof.
  split; [done|]. split.
  - intros (u & Hu & Hr). unfold respond, listAvailableSlotsForProfessor. cbn.
    by rewrite Hu, Hr.
  - intros Hno. unfold respond, listAvailableSlotsForProfessor. cbn.
    destruct (users db !! professorId) as [u|] eqn:Hu; [|done].
    destruct (role u) eqn:Hr; [done|]. destruct Hno. by exists u.
Qed.

(** C5 fails as stated: "9:00" is not of the form HH:MM, and the slot
    9:00-9:30 is accepted and stored. *)
Lemma createSlot_accepts_one_digit_hour :
  isHHMM "9:00" = false
  /\ respond (createSlot 1 {| CreateSlot.date := IsoDate oct4;
                              CreateSlot.startTime := "9:00";
                              CreateSlot.endTime := "9:30" |}) campus
     = (Some (created 1 (newSlot 1 oct4 "9:00" "9:30")),
        withAvailabilities
          (<[1 := newSlot 1 oct4 "9:00" "9:30"]> (availabilities campus))
          campus).
Proof. split; vm_compute; reflexivity. Qed.

(* ===================================================================== *)
(** ** The theorems at work on the college *)
(* ===================================================================== *)

Lemma campus_slots (k : nat) (a : Availability.t) :
  availabilities campus !! k = Some a ->
  k = 0 /\ a = newSlot 1 oct4 "10:00" "11:00".
Proof.
  unfold campus. simpl. intros H.
  by apply lookup_singleton_Some in H as [<- <-].
Qed.

Lemma bookSlot_booked_is_refused_witness :
  availabilities bookedCampus !! 0 = Some takenSlot
  /\ Availability.isBooked takenSlot = true
  /\ exists r,
       respond (bookSlot 3 (request 0) dayBefore) bookedCampus
       = (Some r, bookedCampus)
       /\ statusCode r = 400 /\ success r = false.
Proof.
  split; [vm_compute; reflexivity|]. split; [reflexivity|].
  destruct (bookSlot_booked_is_refused bookedCampus 3 0 (request 0) dayBefore
              takenSlot) as (r & Hr & Hcode & Hfail & _);
    try (vm_compute; reflexivity).
  exists r. split; [exact Hr|]. split; [exact Hcode|exact Hfail].
Defined.


Lemma createSlot_rejects_witness :
  (exists r, respond (createSlot 1 {| CreateSlot.date := IsoDate oct4;
                                      CreateSlot.startTime := "25:00";
                                      CreateSlot.endTime := "26:00" |}) campus
             = (Some r, campus) /\ statusCode r = 400)
  /\ (exists r, respond (createSlot 1 {| CreateSlot.date := IsoDate oct4;
                                         CreateSlot.startTime := "11:00";
                                         CreateSlot.endTime := "10:00" |}) campus
                = (Some r, campus) /\ success r = false /\ statusCode r = 400).
Proof.
  split.
  - destruct (createSlot_rejects_malformed_or_unordered campus 1
                {| CreateSlot.date := IsoDate oct4;
                   CreateSlot.startTime := "25:00";
                   CreateSlot.endTime := "26:00" |}) as [H _].
    destruct H as [_ H]; [left; vm_compute; reflexivity|].
    eexists. split; [exact H|reflexivity].
  - destruct (createSlot_rejects_malformed_or_unordered campus 1
                {| CreateSlot.date := IsoDate oct4;
                   CreateSlot.startTime := "11:00";
                   CreateSlot.endTime := "10:00" |}) as [_ H].
    destruct H as (r & Hr & Hfail & Hcode); [vm_compute; reflexivity|].
    exists r. split; [exact Hr|]. split; [exact Hfail|].
    apply Hcode. intros raw. discriminate.
Defined.

Example createSlot_valid_call_on_campus :
  respond (createSlot 1 {| CreateSlot.date := IsoDate oct4;
                           CreateSlot.startTime := "10:00";
                           CreateSlot.endTime := "11:00" |}) campus
  = (Some (failure 400 "This time slot already exists"), campus)
  /\ exists id doc,
       availabilities campus !! id = None
       /\ Availability.isBooked doc = false
       /\ sameSlot 1 oct4 "14:00" "15:00" doc
       /\ respond (createSlot 1 {| CreateSlot.date := IsoDate oct4;
                                   CreateSlot.startTime := "14:00";
                                   CreateSlot.endTime := "15:00" |}) campus
          = (Some (created id doc),
             withAvailabilities (<[id := doc]> (availabilities campus)) campus).
Proof.
  split.
  - apply (createSlot_valid_call campus 1 oct4 "10:00" "11:00");
      try (vm_compute; reflexivity).
    exists 0, (newSlot 1 oct4 "10:00" "11:00").
    split; [vm_compute; reflexivity|]. by repeat split.
  - apply (createSlot_valid_call campus 1 oct4 "14:00" "15:00");
      try (vm_compute; reflexivity).
    intros k a Hk (_ & _ & Hs & _).
    apply campus_slots in Hk as [_ ->]. discriminate.
Qed.



Lemma updateStatus_recancels_witness :
  appointments rebookedCampus !! 0
  = Some (Appointment.assign cancelled aliceBooking)
  /\ availabilities rebookedCampus !! 0
     = Some (Availability.assign true (Some 3) morning)
  /\ (exists r db',
        respond (updateAppointmentStatus 1 (CastId 0) "cancelled") rebookedCampus
        = (Some r, db')
        /\ statusCode r = 200
        /\ exists slot',
             availabilities db' !! 0 = Some slot'
             /\ Availability.isBooked slot' = false
             /\ Availability.bookedBy slot' = None)
  /\ respond (cancelAppointment 1 (CastId 0)) rebookedCampus
     = (Some alreadyCancelled, rebookedCampus).
Proof.
  assert (H : appointments rebookedCampus !! 0
              = Some (Appointment.assign cancelled aliceBooking))
    by (vm_compute; reflexivity).
  assert (Hslot : availabilities rebookedCampus !! 0
                  = Some (Availability.assign true (Some 3) morning))
    by (vm_compute; reflexivity).
  split; [exact H|]. split; [exact Hslot|].
  destruct (updateStatus_recancels rebookedCampus 1 0
              (Appointment.assign cancelled aliceBooking) H)
    as [(r & db' & Hrun & _ & Hcode & _ & Hreset) Hcancel]; try reflexivity.
  split; [|exact Hcancel].
  exists r, db'. split; [exact Hrun|]. split; [exact Hcode|].
  destruct (Hreset _ Hslot) as (slot' & Hs' & Hb & Hby & _).
  exists slot'. split; [exact Hs'|]. split; [exact Hb|exact Hby].
Defined.

(* ===================================================================== *)
(** ** DeleteSlot *)
(* ===================================================================== *)

Lemma findOwned_spec (db : Db) (user id : nat) :
  head (selectAvailabilities
          {| q_id := Some id; q_professor := Some user; q_date := None;
             q_startTime := None; q_endTime := None; q_isBooked := None |} db)
  = match availabilities db !! id with
    | Some slot =>
        if Nat.eqb (Availability.professor slot) user then Some (id, slot)
        else None
    | None => None
    end.
Proof.
  set (q := {| q_id := Some id |}).
  assert (Hsat : forall k a, satisfies q (k, a)
                 = Nat.eqb k id && Nat.eqb (Availability.professor a) user).
  { intros k a. unfold satisfies, holds. simpl. by rewrite !andb_true_r. }
  destruct (head (selectAvailabilities q db)) as [[k a]|] eqn:E.
  - apply findOne_Some in E as [Hk Hs]. simpl in *. rewrite Hsat in Hs.
    apply andb_true_iff in Hs as [Hid Hown].
    apply Nat.eqb_eq in Hid as ->. by rewrite Hk, Hown.
  - destruct (availabilities db !! id) as [slot|] eqn:Hid; [|done].
    eapply findOne_None in E; [|exact Hid].
    rewrite Hsat, Nat.eqb_refl in E. simpl in E. by rewrite E.
Qed.

(** X1. DeleteSlot on a well-formed id that is not stored, or whose slot
    belongs to another professor, is answered 404 "Availability slot not
    found": the two cases cannot be told apart. On an id that cannot be
    cast to an ObjectId the query rejects and the answer is 500 "Error
    deleting availability slot". Nothing changes in either case. *)
Theorem deleteSlot_foreign_or_missing
    (db : Db) (user id : nat) (raw : string) :
  ((forall slot, availabilities db !! id = Some slot ->
                 Availability.professor slot <> user) ->
   respond (deleteSlot user (CastId id)) db = (Some slotNotFound, db))
  /\ respond (deleteSlot user (NoCast raw)) db
     = (Some (failure 500 "Error deleting availability slot"), db).
Proof.
  split; [|reflexivity].
  intros Hforeign. unfold respond, deleteSlot. cbn. rewrite findOwned_spec.
  destruct (availabilities db !! id) as [slot|] eqn:Hid; [|done].
  specialize (Hforeign slot eq_refl). apply Nat.eqb_neq in Hforeign.
  by rewrite Hforeign.
Qed.

Lemma deleteSlot_own (db : Db) (user id : nat) (slot : Availability.t) :
  availabilities db !! id = Some slot ->
  Availability.professor slot = user ->
  respond (deleteSlot user (CastId id)) db
  = if Availability.isBooked slot
    then (Some (failure 400
            "Cannot delete booked slot. Cancel the appointment first."), db)
    else (Some deleted, withAvailabilities (delete id (availabilities db)) db).
Proof.
  intros Hid Hown. unfold respond, deleteSlot. cbn.
  rewrite findOwned_spec, Hid, Hown, Nat.eqb_refl. cbn.
  by destruct (Availability.isBooked slot).
Qed.

(** X2. DeleteSlot by the owner: a booked slot is refused with 400 and the
    database is unchanged; an unbooked slot is removed, every other slot,
    every appointment and every user staying as they were. *)
Theorem deleteSlot_owned (db : Db) (user id : nat) (slot : Availability.t) :
  availabilities db !! id = Some slot ->
  Availability.professor slot = user ->
  (Availability.isBooked slot = true ->
     respond (deleteSlot user (CastId id)) db
     = (Some (failure 400
          "Cannot delete booked slot. Cancel the appointment first."), db))
  /\ (Availability.isBooked slot = false ->
      exists db',
        respond (deleteSlot user (CastId id)) db = (Some deleted, db')
        /\ availabilities db' !! id = None
        /\ (forall k, k <> id ->
              availabilities db' !! k = availabilities db !! k)
        /\ appointments db' = appointments db
        /\ users db' = users db).
Proof.
  intros Hid Hown. pose proof (deleteSlot_own db user id slot Hid Hown) as H.
  split; intros Hb; rewrite Hb in H; [done|].
  eexists. split; [exact H|]. simpl. split; [apply lookup_delete_eq|].
  split; [|done]. intros k Hk. by apply lookup_delete_ne.
Qed.

(** X3. Once the professor has cancelled the live appointment on one of
    their slots, deleting that slot succeeds and the slot is gone. *)
Theorem cancel_then_delete
    (db : Db) (user id : nat) (a : Appointment.t) (slot : Availability.t) :
  appointments db !! id = Some a ->
  Appointment.professor a = user ->
  Appointment.status a <> cancelled ->
  availabilities db !! Appointment.availability a = Some slot ->
  Availability.professor slot = user ->
  let db1 := (respond (cancelAppointment user (CastId id)) db).2 in
  exists db2,
    respond (deleteSlot user (CastId (Appointment.availability a))) db1
    = (Some deleted, db2)
    /\ availabilities db2 !! Appointment.availability a = None.
Proof.
  intros Hid Hown Hlive Hslot Hmine db1. subst db1.
  rewrite (cancel_frees_slot db user id a Hid Hown slot Hlive Hslot). simpl.
  eexists. split.
  - erewrite deleteSlot_own; [|apply lookup_insert_eq|done]. reflexivity.
  - simpl. apply lookup_delete_eq.
Qed.

(** X4. Cancelling is not repeatable: after CancelAppointment ran on a live
    appointment (whether or not the slot was still stored), the same
    request is answered 400 "Appointment is already cancelled" and changes
    nothing. *)
Theorem cancel_twice (db : Db) (user id : nat) (a : Appointment.t) :
  appointments db !! id = Some a ->
  Appointment.professor a = user ->
  Appointment.status a <> cancelled ->
  let db1 := (respond (cancelAppointment user (CastId id)) db).2 in
  respond (cancelAppointment user (CastId id)) db1 = (Some alreadyCancelled, db1).
Proof.
  intros Hid Hown Hlive db1.
  assert (Hstored : appointments db1 !! id
                    = Some (Appointment.assign cancelled a)).
  { subst db1.
    destruct (availabilities db !! Appointment.availability a) as [slot|] eqn:E.
    - rewrite (cancel_frees_slot db user id a Hid Hown slot Hlive E).
      apply lookup_insert_eq.
    - rewrite (cancel_missing_slot db user id a Hid Hown Hlive E).
      apply lookup_insert_eq. }
  by apply (cancel_already_cancelled db1 user id
              (Appointment.assign cancelled a)).
Qed.

(* ===================================================================== *)
(** ** Booking, in full *)
(* ===================================================================== *)

Lemma listing_member (db : Db) (professorId : nat) (date : option Z) (now : Z) :
  isProfessor db professorId ->
  exists docs,
    respond (listAvailableSlotsForProfessor (CastId professorId) (dateParam date) now) db
    = (Some (okList docs), db)
    /\ forall k a, (k, a) ∈ docs <->
         availabilities db !! k = Some a /\ listed professorId date now a.
Proof.
  intros Hprof.
  destruct (listing_exact db professorId date now) as [_ H].
  destruct (H Hprof) as (docs & Hrun & _ & _ & Hmem). by exists docs.
Qed.

(** X5. A BookSlot request served on its own either performs both writes
    and is answered 201, which happens only for an open slot, or is
    answered with a 400, 404 or 500 failure and leaves the database
    exactly as it was. After the two writes a new appointment of the
    caller for that slot is stored with status confirmed, and the slot is
    stored with [isBooked = true] and [bookedBy] the caller, its
    professor, date and times untouched. *)
Theorem bookSlot_all_or_nothing
    (db : Db) (user : nat) (body : BookSlot.t) (now : Z) :
  (exists id slot i a slot' db',
     BookSlot.availabilityId body = MongoId id
     /\ openSlot db id slot now
     /\ respond (bookSlot user body now) db = (Some (booked i a), db')
     /\ appointments db !! i = None
     /\ appointments db' !! i = Some a
     /\ Appointment.student a = user
     /\ Appointment.availability a = id
     /\ Appointment.status a = confirmed
     /\ availabilities db' !! id = Some slot'
     /\ Availability.isBooked slot' = true
     /\ Availability.bookedBy slot' = Some user
     /\ sameOffer slot slot')
  \/ (exists r,
        respond (bookSlot user body now) db = (Some r, db)
        /\ success r = false
        /\ (statusCode r = 400 \/ statusCode r = 404 \/ statusCode r = 500)).
Proof.
  unfold respond, bookSlot.
  destruct (BookSlot.validationResult body) eqn:Hv; cbn;
    [|right; eexists; split; [done|]; split; [done|]; by left].
  destruct (BookSlot.availabilityId body) as [id|raw] eqn:Hid; cbn;
    [|right; eexists; split; [done|]; split; [done|]; by right; right].
  rewrite findById_spec.
  destruct (availabilities db !! id) as [slot|] eqn:Hs; cbn;
    [|right; eexists; split; [done|]; split; [done|]; by right; left].
  destruct (Availability.isBooked slot) eqn:Hb; cbn;
    [right; eexists; split; [done|]; split; [done|]; by left|].
  destruct (Z.ltb_spec (Availability.date slot) now) as [Hlt|Hge]; cbn;
    [right; eexists; split; [done|]; split; [done|]; by left|].
  destruct (users db !! Availability.professor slot) as [p|] eqn:Hp; cbn;
    [|right; eexists; split; [done|]; split; [done|]; by right; right].
  rewrite Hs. cbn. left.
  exists id, slot, (fresh (dom (appointments db))),
         (booking user id slot body),
         (Availability.assign true (Some user) slot).
  eexists. split; [done|]. split; [by repeat split|].
  split; [reflexivity|]. split; [apply fresh_appointment|]. simpl.
  split; [apply lookup_insert_eq|]. do 3 (split; [reflexivity|]).
  split; [apply lookup_insert_eq|]. by repeat split.
Qed.

(** X6. A BookSlot request whose id is not a Mongo id, or whose notes the
    length validator refuses, is answered 400 "Validation errors" before
    any lookup, with the message of each validator that failed, and
    nothing is written. *)
Theorem bookSlot_rejects_invalid
    (db : Db) (user : nat) (body : BookSlot.t) (now : Z) :
  (isMongoId (BookSlot.availabilityId body) = false
   \/ exists n, BookSlot.notes body = Some n /\ withinLimit n = false) ->
  exists errors,
    respond (bookSlot user body now) db = (Some (validationFailure errors), db)
    /\ errors <> []
    /\ (isMongoId (BookSlot.availabilityId body) = false <->
        "Please provide a valid availability ID" ∈ errors)
    /\ ((exists n, BookSlot.notes body = Some n /\ withinLimit n = false) <->
        "Notes cannot exceed 500 characters" ∈ errors).
Proof.
  intros Hbad. exists (BookSlot.validationResult body).
  assert (Hid : isMongoId (BookSlot.availabilityId body) = false <->
                "Please provide a valid availability ID"
                ∈ BookSlot.validationResult body).
  { unfold BookSlot.validationResult.
    destruct (isMongoId (BookSlot.availabilityId body)); simpl.
    - split; [done|]. destruct (BookSlot.notes body) as [n|]; simpl;
        [destruct (withinLimit n); simpl|]; intros Hin;
        repeat (apply elem_of_cons in Hin as [Hin|Hin]; [done|]);
        by apply elem_of_nil in Hin.
    - split; [intros _; left|done]. }
  assert (Hnotes : (exists n, BookSlot.notes body = Some n
                              /\ withinLimit n = false) <->
                   "Notes cannot exceed 500 characters"
                   ∈ BookSlot.validationResult body).
  { unfold BookSlot.validationResult.
    destruct (BookSlot.notes body) as [n|]; simpl.
    - destruct (withinLimit n) eqn:Hlen; simpl.
      + split; [intros (n' & [= <-] & Hn'); congruence|].
        rewrite app_nil_r. intros Hin.
        destruct (isMongoId (BookSlot.availabilityId body)); simpl in Hin;
          repeat (apply elem_of_cons in Hin as [Hin|Hin]; [done|]);
          by apply elem_of_nil in Hin.
      + split; [intros _|intros _; by exists n].
        apply elem_of_app. right. left.
    - split; [intros (n' & [=] & _)|]. rewrite app_nil_r. intros Hin.
      destruct (isMongoId (BookSlot.availabilityId body)); simpl in Hin;
        repeat (apply elem_of_cons in Hin as [Hin|Hin]; [done|]);
        by apply elem_of_nil in Hin. }
  assert (Hne : BookSlot.validationResult body <> []).
  { intros Hnil. rewrite Hnil in Hid, Hnotes.
    destruct Hbad as [Hbad|Hbad];
      [apply Hid in Hbad|apply Hnotes in Hbad]; by apply elem_of_nil in Hbad. }
  split; [|done]. unfold respond, bookSlot.
  by destruct (BookSlot.validationResult body).
Qed.

Lemma bookSlot_missing_slot
    (db : Db) (user id : nat) (body : BookSlot.t) (now : Z) :
  BookSlot.validationResult body = [] ->
  BookSlot.availabilityId body = MongoId id ->
  availabilities db !! id = None ->
  respond (bookSlot user body now) db = (Some slotNotFound, db).
Proof.
  intros Hv Hid Hs. unfold respond, bookSlot. rewrite Hv, Hid. cbn.
  by rewrite findById_spec, Hs.
Qed.

Lemma bookSlot_professor_gone
    (db : Db) (user id : nat) (body : BookSlot.t) (now : Z)
    (slot : Availability.t) :
  BookSlot.validationResult body = [] ->
  BookSlot.availabilityId body = MongoId id ->
  availabilities db !! id = Some slot ->
  Availability.isBooked slot = false ->
  (now <= Availability.date slot)%Z ->
  users db !! Availability.professor slot = None ->
  respond (bookSlot user body now) db
  = (Some (failure 500 "Error booking appointment"), db).
Proof.
  intros Hv Hid Hs Hb Hnow Hp. unfold respond, bookSlot. rewrite Hv, Hid. cbn.
  rewrite findById_spec, Hs. cbn. rewrite Hb, Hp.
  apply Z.ltb_ge in Hnow. by rewrite Hnow.
Qed.

(** X7. A successful booking stores, under an id not in use, an appointment
    that copies professor, date, start and end from the slot, has the
    caller as student, the notes as the [trim()] sanitizer left them (or
    the empty string) and status confirmed; the slot is stored with
    [isBooked = true] and [bookedBy] the caller, its professor, date and
    times untouched; every other slot and appointment and every user is
    unchanged. *)
Theorem bookSlot_snapshot
    (db : Db) (user id : nat) (body : BookSlot.t) (now : Z)
    (slot : Availability.t) :
  BookSlot.validationResult body = [] ->
  BookSlot.availabilityId body = MongoId id ->
  openSlot db id slot now ->
  exists i a slot' db',
    respond (bookSlot user body now) db = (Some (booked i a), db')
    /\ appointments db !! i = None
    /\ appointments db' !! i = Some a
    /\ Appointment.student a = user
    /\ Appointment.professor a = Availability.professor slot
    /\ Appointment.availability a = id
    /\ Appointment.date a = Availability.date slot
    /\ Appointment.startTime a = Availability.startTime slot
    /\ Appointment.endTime a = Availability.endTime slot
    /\ Appointment.notes a
       = match BookSlot.notes body with
         | Some n => trimmed n
         | None => ""
         end
    /\ Appointment.status a = confirmed
    /\ availabilities db' !! id = Some slot'
    /\ Availability.isBooked slot' = true
    /\ Availability.bookedBy slot' = Some user
    /\ sameOffer slot slot'
    /\ (forall k, k <> id -> availabilities db' !! k = availabilities db !! k)
    /\ (forall j, j <> i -> appointments db' !! j = appointments db !! j)
    /\ users db' = users db.
Proof.
  intros Hv Hid Hopen.
  exists (fresh (dom (appointments db))), (booking user id slot body),
         (Availability.assign true (Some user) slot),
         (afterBooking db user id slot body).
  split; [by apply bookSlot_succeeds|].
  split; [apply fresh_appointment|]. simpl.
  split; [apply lookup_insert_eq|]. do 6 (split; [reflexivity|]).
  split; [unfold BookSlot.sanitized; by destruct (BookSlot.notes body)|].
  split; [reflexivity|].
  split; [apply lookup_insert_eq|]. do 2 (split; [reflexivity|]).
  split; [by repeat split|].
  split; [intros k Hk; by apply lookup_insert_ne|].
  split; [intros j Hj; by apply lookup_insert_ne|]. done.
Qed.

(* ===================================================================== *)
(** ** How booking, cancelling and listing compose *)
(* ===================================================================== *)

(** X8. An open slot is on the professor's list of available slots, and
    after it has been booked no entry for it is on that list. *)
Theorem booking_hides_slot
    (db : Db) (user id : nat) (body : BookSlot.t) (now : Z)
    (slot : Availability.t) :
  BookSlot.validationResult body = [] ->
  BookSlot.availabilityId body = MongoId id ->
  openSlot db id slot now ->
  isProfessor db (Availability.professor slot) ->
  let list := listAvailableSlotsForProfessor
                (CastId (Availability.professor slot)) NoDate now in
  let db1 := (respond (bookSlot user body now) db).2 in
  (exists docs, respond list db = (Some (okList docs), db)
                /\ (id, slot) ∈ docs)
  /\ (exists docs1, respond list db1 = (Some (okList docs1), db1)
                    /\ forall a, (id, a) ∉ docs1).
Proof.
  intros Hv Hid Hopen Hprof list db1. split.
  - destruct (listing_member db _ None now Hprof) as (docs & Hrun & Hmem).
    exists docs. split; [done|]. apply Hmem.
    destruct Hopen as (Hs & Hb & Hnow & _). by repeat split.
  - subst db1. rewrite (bookSlot_succeeds db user id body now slot Hv Hid Hopen).
    simpl.
    destruct (listing_member (afterBooking db user id slot body)
                (Availability.professor slot) None now Hprof)
      as (docs & Hrun & Hmem).
    exists docs. split; [done|]. intros a Hin.
    apply Hmem in Hin as [Hk (_ & Hb & _)]. simpl in Hk.
    rewrite lookup_insert_eq in Hk. injection Hk as <-. done.
Qed.

(** X9. After the professor cancelled the live appointment on one of their
    slots, the slot, unbooked and with no [bookedBy], is on their list of
    available slots again (if it is not dated before the clock). *)
Theorem cancelling_reopens_slot
    (db : Db) (user id : nat) (a : Appointment.t) (slot : Availability.t)
    (now : Z) :
  appointments db !! id = Some a ->
  Appointment.professor a = user ->
  Appointment.status a <> cancelled ->
  availabilities db !! Appointment.availability a = Some slot ->
  Availability.professor slot = user ->
  isProfessor db user ->
  (now <= Availability.date slot)%Z ->
  let db1 := (respond (cancelAppointment user (CastId id)) db).2 in
  exists docs,
    respond (listAvailableSlotsForProfessor (CastId user) NoDate now) db1
    = (Some (okList docs), db1)
    /\ (Appointment.availability a, Availability.assign false None slot) ∈ docs.
Proof.
  intros Hid Hown Hlive Hslot Hmine Hprof Hnow db1. subst db1.
  rewrite (cancel_frees_slot db user id a Hid Hown slot Hlive Hslot). simpl.
  match goal with |- context [respond _ ?d] => set (db1 := d) end.
  destruct (listing_member db1 user None now Hprof) as (docs & Hrun & Hmem).
  exists docs. split; [done|]. apply Hmem. split.
  - apply lookup_insert_eq.
  - by repeat split.
Qed.


(* ===================================================================== *)
(** ** Who may cancel and update *)
(* ===================================================================== *)

Lemma findAppointment_foreign (db : Db) (user id : nat) :
  (forall a, appointments db !! id = Some a ->
             Appointment.professor a <> user) ->
  (exec (Appointment_findOne id user) db).1 = None.
Proof.
  intros Hforeign. simpl.
  destruct (appointments db !! id) as [a|] eqn:Hid; [|done].
  specialize (Hforeign a eq_refl). apply Nat.eqb_neq in Hforeign.
  by rewrite Hforeign.
Qed.

Lemma cancel_not_found (db : Db) (user id : nat) :
  (forall a, appointments db !! id = Some a ->
             Appointment.professor a <> user) ->
  respond (cancelAppointment user (CastId id)) db = (Some appointmentNotFound, db).
Proof.
  intros Hforeign. apply findAppointment_foreign in Hforeign.
  unfold respond, cancelAppointment. cbn. simpl in Hforeign.
  by rewrite Hforeign.
Qed.

(** X11. CancelAppointment on a well-formed id whose appointment is not
    stored, or has another professor than the caller, is answered 404
    "Appointment not found"; on an id that cannot be cast to an ObjectId
    the query rejects and the answer is 500 "Error cancelling
    appointment". Nothing changes in either case. *)
Theorem cancel_foreign_or_missing (db : Db) (user id : nat) (raw : string) :
  ((forall a, appointments db !! id = Some a ->
              Appointment.professor a <> user) ->
   respond (cancelAppointment user (CastId id)) db
   = (Some appointmentNotFound, db))
  /\ respond (cancelAppointment user (NoCast raw)) db
     = (Some (failure 500 "Error cancelling appointment"), db).
Proof. split; [apply cancel_not_found|reflexivity]. Qed.

Lemma updateStatus_not_found (db : Db) (user id : nat) (s : string) (st : Status) :
  statusOfString s = Some st ->
  (forall a, appointments db !! id = Some a ->
             Appointment.professor a <> user) ->
  respond (updateAppointmentStatus user (CastId id) s) db
  = (Some appointmentNotFound, db).
Proof.
  intros Hs Hforeign. apply findAppointment_foreign in Hforeign.
  unfold respond, updateAppointmentStatus. rewrite Hs. simpl in Hforeign.
  cbn. by rewrite Hforeign.
Qed.

Lemma statusOfString_name (st : Status) : statusOfString (statusName st) = Some st.
Proof. by destruct st. Qed.

Lemma statusOfString_Some (s : string) (st : Status) :
  statusOfString s = Some st -> s = statusName st.
Proof.
  unfold statusOfString.
  destruct (String.eqb_spec s "pending") as [->|_]; [by intros [= <-]|].
  destruct (String.eqb_spec s "confirmed") as [->|_]; [by intros [= <-]|].
  destruct (String.eqb_spec s "cancelled") as [->|_]; [by intros [= <-]|].
  destruct (String.eqb_spec s "completed") as [->|_]; [by intros [= <-]|].
  done.
Qed.

(** X12. UpdateAppointmentStatus with a valid status: on a well-formed id
    whose appointment is not stored, or has another professor than the
    caller, it is answered 404 "Appointment not found"; on an id that
    cannot be cast to an ObjectId the query rejects and the answer is 500
    "Error updating appointment status". Nothing changes in either
    case. *)
Theorem updateStatus_foreign_or_missing
    (db : Db) (user id : nat) (raw : string) (st : Status) :
  ((forall a, appointments db !! id = Some a ->
              Appointment.professor a <> user) ->
   respond (updateAppointmentStatus user (CastId id) (statusName st)) db
   = (Some appointmentNotFound, db))
  /\ respond (updateAppointmentStatus user (NoCast raw) (statusName st)) db
     = (Some (failure 500 "Error updating appointment status"), db).
Proof.
  split.
  - intros Hforeign.
    by apply (updateStatus_not_found db user id (statusName st) st
                (statusOfString_name st)).
  - unfold respond, updateAppointmentStatus.
    by rewrite statusOfString_name.
Qed.

(** X13. UpdateAppointmentStatus with a status other than the four names
    pending, confirmed, cancelled and completed is answered 400 "Validation
    errors" (Invalid status) and changes nothing. *)
Theorem updateStatus_rejects_unknown_status
    (db : Db) (user : nat) (id : IdParam) (s : string) :
  (forall st, s <> statusName st) ->
  respond (updateAppointmentStatus user id s) db
  = (Some (validationFailure ["Invalid status"]), db).
Proof.
  intros Hunknown. unfold respond, updateAppointmentStatus.
  destruct (statusOfString s) as [st|] eqn:E; [|done].
  apply statusOfString_Some in E. by destruct (Hunknown st).
Qed.

(** X14. UpdateAppointmentStatus by the owning professor to pending,
    confirmed or completed writes the status of that appointment and
    nothing else: its other fields, the other appointments, all slots and
    all users stay as they were. *)
Theorem updateStatus_changes_status_only
    (db : Db) (user id : nat) (a : Appointment.t) (st : Status) :
  appointments db !! id = Some a ->
  Appointment.professor a = user ->
  st <> cancelled ->
  exists a' db',
    respond (updateAppointmentStatus user (CastId id) (statusName st)) db
    = (Some (statusUpdated id a'), db')
    /\ appointments db' !! id = Some a'
    /\ Appointment.status a' = st
    /\ sameBooking a a'
    /\ (forall j, j <> id -> appointments db' !! j = appointments db !! j)
    /\ availabilities db' = availabilities db
    /\ users db' = users db.
Proof.
  intros Hid Hown Hst.
  exists (Appointment.assign st a). eexists. split.
  - apply (updateStatus_other db user id a Hid Hown (statusName st) st);
      [apply statusOfString_name|done].
  - simpl. split; [apply lookup_insert_eq|]. split; [done|].
    split; [by repeat split|]. split; [|done].
    intros j Hj. by apply lookup_insert_ne.
Qed.

(* ===================================================================== *)
(** ** What no request does *)
(* ===================================================================== *)

Lemma updateStatus_cases (db : Db) (user id : nat) (s : string) :
  (respond (updateAppointmentStatus user (CastId id) s) db).2 = db
  \/ exists a st,
       appointments db !! id = Some a
       /\ (respond (updateAppointmentStatus user (CastId id) s) db).2
          = {| users := users db;
               availabilities :=
                 match st with
                 | cancelled =>
                     release (Appointment.availability a) (availabilities db)
                 | _ => availabilities db
                 end;
               appointments :=
                 <[id := Appointment.assign st a]> (appointments db) |}.
Proof.
  destruct (statusOfString s) as [st|] eqn:Hs.
  - destruct (appointments db !! id) as [a|] eqn:Hid.
    + destruct (decide (Appointment.professor a = user)) as [Hown|Hother].
      * right. exists a, st. split; [done|].
        destruct (decide (st = cancelled)) as [->|Hst].
        -- apply statusOfString_Some in Hs. subst s. simpl statusName.
           by rewrite (updateStatus_cancelled db user id a Hid Hown).
        -- rewrite (updateStatus_other db user id a Hid Hown s st Hs Hst).
           by destruct st.
      * left. rewrite (updateStatus_not_found db user id s st Hs); [done|].
        intros a' Ha'. congruence.
    + left. rewrite (updateStatus_not_found db user id s st Hs); [done|].
      intros a' Ha'. congruence.
  - left. unfold respond, updateAppointmentStatus. by rewrite Hs.
Qed.

Lemma sameOffer_refl (s : Availability.t) : sameOffer s s.
Proof. by repeat split. Qed.

Lemma sameOffer_assign (b : bool) (u : option nat) (s : Availability.t) :
  sameOffer s (Availability.assign b u s).
Proof. by repeat split. Qed.

Lemma sameOffer_trans (a b c : Availability.t) :
  sameOffer a b -> sameOffer b c -> sameOffer a c.
Proof. unfold sameOffer. intuition congruence. Qed.

Lemma sameOffer_sym (a b : Availability.t) : sameOffer a b -> sameOffer b a.
Proof. unfold sameOffer. intuition congruence. Qed.

Lemma deleteSlot_effect (db : Db) (user id : nat) :
  (respond (deleteSlot user (CastId id)) db).2 = db
  \/ exists slot,
       availabilities db !! id = Some slot
       /\ Availability.professor slot = user
       /\ Availability.isBooked slot = false
       /\ (respond (deleteSlot user (CastId id)) db).2
          = withAvailabilities (delete id (availabilities db)) db.
Proof.
  destruct (availabilities db !! id) as [slot|] eqn:Hid.
  - destruct (decide (Availability.professor slot = user)) as [Hown|Hother].
    + rewrite (deleteSlot_own db user id slot Hid Hown).
      destruct (Availability.isBooked slot) eqn:Hb; [by left|].
      right. by exists slot.
    + left. unfold respond, deleteSlot. cbn. rewrite findOwned_spec, Hid.
      apply Nat.eqb_neq in Hother. by rewrite Hother.
  - left. unfold respond, deleteSlot. cbn. by rewrite findOwned_spec, Hid.
Qed.

Lemma createSlot_effect (db : Db) (user : nat) (body : CreateSlot.t) :
  (respond (createSlot user body) db).2 = db
  \/ exists date,
       CreateSlot.validationResult body = []
       /\ (forall k a, availabilities db !! k = Some a ->
             ~ sameSlot user date (CreateSlot.startTime body)
                 (CreateSlot.endTime body) a)
       /\ (respond (createSlot user body) db).2
          = withAvailabilities
              (<[fresh (dom (availabilities db)) :=
                   newSlot user date (CreateSlot.startTime body)
                     (CreateSlot.endTime body)]> (availabilities db)) db.
Proof.
  unfold respond, createSlot.
  destruct (CreateSlot.validationResult body) eqn:Hv; cbn; [|by left].
  destruct (CreateSlot.date body) as [date|raw|raw]; cbn; [|by left..].
  fold (duplicateQuery user date (CreateSlot.startTime body)
          (CreateSlot.endTime body)).
  destruct (head _) as [kv|] eqn:E; cbn; [by left|].
  destruct (Availability_preSave _) as [e|]; cbn.
  - left. by destruct (includes _ _).
  - right. exists date. split; [done|]. split; [|done].
    intros k a Hk Hsame. eapply findOne_None in E; [|exact Hk].
    apply (satisfies_duplicateQuery user date _ _ k a) in Hsame. congruence.
Qed.

Lemma slotsFrom_refl (db : Db) : slotsFrom db db.
Proof. intros k s Hk. exists s. split; [done|apply sameOffer_refl]. Qed.

Lemma slotsFrom_release (db : Db) (k0 : nat) (m : gmap nat User)
    (apps : gmap nat Appointment.t) :
  slotsFrom db {| users := m;
                  availabilities := release k0 (availabilities db);
                  appointments := apps |}.
Proof.
  intros k s' Hk. simpl in Hk. rewrite lookup_release in Hk.
  case_decide as Heq.
  - subst k. destruct (availabilities db !! k0) as [s|]; [|done].
    injection Hk as <-. exists s. split; [done|apply sameOffer_assign].
  - exists s'. split; [done|apply sameOffer_refl].
Qed.

Lemma serve_slotsFrom (db : Db) (r : Request) :
  (forall user body, r <> CreateSlotRequest user body) ->
  slotsFrom db (serve db r).
Proof.
  intros Hr. unfold serve.
  destruct r as [u b|u [k|raw]|u b now|u [i|raw]|u [i|raw] s]; simpl;
    rewrite ?updateStatus_no_cast; try apply slotsFrom_refl.
  - by destruct (Hr u b).
  - destruct (deleteSlot_effect db u k) as [->|(slot & _ & _ & _ & ->)];
      [apply slotsFrom_refl|].
    intros k' s' Hk'. simpl in Hk'. apply lookup_delete_Some in Hk' as [_ Hk'].
    exists s'. split; [done|apply sameOffer_refl].
  - destruct (bookSlot_cases db u b now) as [->|(id & slot & Hs & _ & ->)];
      [apply slotsFrom_refl|].
    intros k' s' Hk'. simpl in Hk'. destruct (decide (id = k')) as [<-|Hne].
    + rewrite lookup_insert_eq in Hk'. injection Hk' as <-.
      exists slot. split; [done|apply sameOffer_assign].
    + rewrite lookup_insert_ne in Hk' by done.
      exists s'. split; [done|apply sameOffer_refl].
  - destruct (cancelAppointment_cases db u i) as [->|(a & _ & _ & ->)];
      [apply slotsFrom_refl|apply slotsFrom_release].
  - destruct (updateStatus_cases db u i s) as [->|(a & st & _ & ->)];
      [apply slotsFrom_refl|].
    destruct st; try apply slotsFrom_release;
      intros k' s' Hk'; exists s'; (split; [done|apply sameOffer_refl]).
Qed.

(** X17. A request leaves a stored slot in place with the same professor,
    date, start and end, unless it is the DeleteSlot request of the slot's
    own professor for that slot while the slot is unbooked. *)
Theorem slot_leaves_only_by_delete (db : Db) (r : Request) (k : nat)
    (s : Availability.t) :
  availabilities db !! k = Some s ->
  (exists s', availabilities (serve db r) !! k = Some s' /\ sameOffer s s')
  \/ (availabilities (serve db r) !! k = None
      /\ r = DeleteSlotRequest (Availability.professor s) (CastId k)
      /\ Availability.isBooked s = false).
Proof.
  intros Hk.
  assert (Hstay : exists s', availabilities db !! k = Some s' /\ sameOffer s s')
    by (exists s; split; [done|apply sameOffer_refl]).
  assert (Hrel : forall k0 m apps,
            exists s', availabilities
                         {| users := m;
                            availabilities := release k0 (availabilities db);
                            appointments := apps |} !! k = Some s'
                       /\ sameOffer s s').
  { intros k0 m apps. simpl. rewrite lookup_release. case_decide as Heq.
    - subst k0. rewrite Hk. simpl. eexists. split; [done|].
      apply sameOffer_assign.
    - done. }
  unfold serve.
  destruct r as [u b|u [k0|raw]|u b now|u [j|raw]|u [j|raw] st]; simpl;
    rewrite ?updateStatus_no_cast; try (by left).
  - left. destruct (createSlot_effect db u b) as [->|(d & _ & _ & ->)];
      [done|]. simpl. exists s. split; [|apply sameOffer_refl].
    rewrite lookup_insert_ne; [done|].
    intros Heq. pose proof (fresh_availability (availabilities db)). congruence.
  - destruct (deleteSlot_effect db u k0)
      as [->|(slot & Hs & Hown & Hb & ->)]; [by left|]. simpl.
    destruct (decide (k0 = k)) as [->|Hne].
    + right. rewrite lookup_delete_eq. rewrite Hk in Hs. injection Hs as <-.
      by subst u.
    + left. rewrite lookup_delete_ne by done. done.
  - left. destruct (bookSlot_cases db u b now)
      as [->|(id & slot & Hs & _ & ->)]; [done|]. simpl.
    destruct (decide (id = k)) as [->|Hne].
    + rewrite lookup_insert_eq. eexists. split; [done|].
      rewrite Hk in Hs. injection Hs as <-. apply sameOffer_assign.
    + rewrite lookup_insert_ne by done. done.
  - left. destruct (cancelAppointment_cases db u j) as [->|(a & _ & _ & ->)];
      [done|apply Hrel].
  - left. destruct (updateStatus_cases db u j st) as [->|(a & st' & _ & ->)];
      [done|]. destruct st'; try apply Hrel; done.
Qed.

Lemma serve_uniqueSlots (db : Db) (r : Request) :
  uniqueSlots db -> uniqueSlots (serve db r).
Proof.
  intros Huniq.
  destruct r as [u b| | | |];
    try (intros k1 k2 s1 s2 H1 H2 Hsame;
         apply serve_slotsFrom in H1 as (t1 & Ht1 & Hs1); [|done];
         apply serve_slotsFrom in H2 as (t2 & Ht2 & Hs2); [|done];
         apply (Huniq k1 k2 t1 t2 Ht1 Ht2);
         eapply sameOffer_trans; [exact Hs1|];
         eapply sameOffer_trans; [exact Hsame|];
         by apply sameOffer_sym).
  unfold serve. simpl.
  destruct (createSlot_effect db u b) as [->|(d & _ & Hfresh & ->)]; [done|].
  set (f := fresh (dom (availabilities db))).
  set (new := newSlot u d (CreateSlot.startTime b) (CreateSlot.endTime b)).
  assert (Hclash : forall k s, availabilities db !! k = Some s ->
                               ~ sameOffer s new).
  { intros k s Hk (H1 & H2 & H3 & H4). by apply (Hfresh k s Hk). }
  intros k1 k2 s1 s2 H1 H2 Hsame. simpl in H1, H2.
  destruct (decide (f = k1)) as [<-|Hn1], (decide (f = k2)) as [<-|Hn2].
  - done.
  - rewrite lookup_insert_eq in H1. rewrite lookup_insert_ne in H2 by done.
    injection H1 as <-. destruct (Hclash k2 s2 H2). by apply sameOffer_sym.
  - rewrite lookup_insert_eq in H2. rewrite lookup_insert_ne in H1 by done.
    injection H2 as <-. by destruct (Hclash k1 s1 H1).
  - rewrite lookup_insert_ne in H1 by done.
    rewrite lookup_insert_ne in H2 by done. by eapply Huniq.
Qed.

(** X18. If no two stored slots have the same professor, date, start and
    end, the same holds after any sequence of requests served one after
    the other. *)
Theorem unique_slots_preserved (db : Db) (rs : list Request) :
  uniqueSlots db -> uniqueSlots (serveAll db rs).
Proof.
  revert db. induction rs as [|r rs IH]; intros db H; simpl; [done|].
  by apply IH, serve_uniqueSlots.
Qed.

Lemma serve_wellTimed (db : Db) (r : Request) :
  wellTimed db -> wellTimed (serve db r).
Proof.
  intros Hwell.
  destruct r as [u b| | | |];
    try (intros k s' Hk;
         apply serve_slotsFrom in Hk as (s & Hs & _ & _ & Hst & Hen); [|done];
         rewrite <- Hst, <- Hen; by apply (Hwell k)).
  unfold serve. simpl.
  destruct (createSlot_effect db u b) as [->|(d & Hv & _ & ->)]; [done|].
  apply createSlot_validation_passes in Hv as (_ & Hst & Hen).
  rewrite timePattern_denotesTime in Hst, Hen.
  intros k s Hk. simpl in Hk.
  destruct (decide (fresh (dom (availabilities db)) = k)) as [<-|Hne].
  - rewrite lookup_insert_eq in Hk. by injection Hk as <-.
  - rewrite lookup_insert_ne in Hk by done. by apply (Hwell k).
Qed.

(** X19. If the start and end of every stored slot denote times of day, the
    same holds after any sequence of requests: CreateSlot stores only
    times its validators accepted and no other request writes them. *)
Theorem stored_times_well_formed (db : Db) (rs : list Request) :
  wellTimed db -> wellTimed (serveAll db rs).
Proof.
  revert db. induction rs as [|r rs IH]; intros db H; simpl; [done|].
  by apply IH, serve_wellTimed.
Qed.

(* ===================================================================== *)
(** ** The read-only routes *)
(* ===================================================================== *)

Lemma paramIs_true (p : option string) (l : string) :
  paramIs p l = true <-> p = Some l.
Proof.
  destruct p as [s|]; simpl; [|done]. rewrite String.eqb_eq.
  split; [by intros ->|by intros [= ->]].
Qed.

Lemma paramIs_false (p : option string) (l : string) :
  paramIs p l = false <-> p <> Some l.
Proof.
  rewrite <- paramIs_true. by destruct (paramIs p l).
Qed.

(** X21. ListOwnSlots, for a [date] parameter that is absent or parses,
    answers 200 with, without repetition and ordered by date and start
    time, exactly the caller's own slots, on the given date when one is
    supplied, unbooked ones for status "available" and booked ones for
    status "booked"; any other status value filters nothing. For a
    [date] that [new Date] does not parse the query rejects and the
    answer is 500 "Error fetching availability slots". The database is
    not changed. *)
Theorem mySlots_result
    (db : Db) (user : nat) (date : option Z) (status : option string)
    (raw : string) :
  (exists docs,
     respond (mySlots user (dateParam date) status) db
     = (Some (okList docs), db)
     /\ NoDup docs
     /\ Sorted SortKeyLe docs
     /\ forall k a, (k, a) ∈ docs <->
          availabilities db !! k = Some a /\ ownListed user date status a)
  /\ respond (mySlots user (InvalidDate raw) status) db
     = (Some (failure 500 "Error fetching availability slots"), db).
Proof.
  split; [|reflexivity].
  set (query :=
    {| q_id := None; q_professor := Some user; q_date := None;
       q_startTime := None; q_endTime := None; q_isBooked := None |}).
  set (dated := match date with
                | Some d => set_date (DateEq d) query
                | None => query
                end).
  exists (sortByDateStart
            (selectAvailabilities
               (if paramIs status "available" then set_isBooked false dated
                else if paramIs status "booked" then set_isBooked true dated
                else dated) db)).
  split; [|split; [|split]].
  - unfold respond, mySlots. subst dated query. by destruct date.
  - unfold sortByDateStart. rewrite merge_sort_Permutation.
    apply NoDup_List_filter, NoDup_map_to_list.
  - apply (Sorted_merge_sort SortKeyLe).
  - intros k a. unfold sortByDateStart. rewrite merge_sort_Permutation.
    rewrite select_spec. simpl.
    apply and_iff_compat_l. unfold ownListed. subst dated query.
    destruct (paramIs status "available") eqn:Hav;
      [|destruct (paramIs status "booked") eqn:Hbk].
    + apply paramIs_true in Hav as ->.
      unfold satisfies, holds. destruct date as [d|]; simpl;
        rewrite !andb_true_r, ?andb_true_iff, Nat.eqb_eq, ?Z.eqb_eq;
        destruct (Availability.isBooked a); simpl; intuition congruence.
    + apply paramIs_true in Hbk as ->.
      unfold satisfies, holds. destruct date as [d|]; simpl;
        rewrite !andb_true_r, ?andb_true_iff, Nat.eqb_eq, ?Z.eqb_eq;
        destruct (Availability.isBooked a); simpl; intuition congruence.
    + apply paramIs_false in Hav, Hbk.
      unfold satisfies, holds. destruct date as [d|]; simpl;
        rewrite !andb_true_r, ?andb_true_iff, Nat.eqb_eq, ?Z.eqb_eq;
        intuition congruence.
Qed.

Section FindAppointments.
Variables (q : AppointmentQuery) (db : Db).

Lemma selectAppointments_spec (kv : nat * Appointment.t) :
kv ∈ selectAppointments q db <->
appointments db !! kv.1 = Some kv.2 /\ satisfiesAppointment q kv = true.
Proof.
unfold selectAppointments.
rewrite list_elem_of_In, filter_In, <- list_elem_of_In.
destruct kv as [k a]. simpl. by rewrite elem_of_map_to_list.
Qed.

Lemma sortAppointments_spec (kv : nat * Appointment.t) :
kv ∈ sortAppointments (selectAppointments q db) <->
appointments db !! kv.1 = Some kv.2 /\ satisfiesAppointment q kv = true.
Proof.
unfold sortAppointments. rewrite merge_sort_Permutation.
apply selectAppointments_spec.
Qed.

Lemma sortAppointments_NoDup :
NoDup (sortAppointments (selectAppointments q db)).
Proof.
unfold sortAppointments. rewrite merge_sort_Permutation.
apply NoDup_List_filter, NoDup_map_to_list.
Qed.
End FindAppointments.

#[global] Instance AppointmentKeyLe_total : Total AppointmentKeyLe.
Proof.
  intros x y. unfold AppointmentKeyLe, appointmentKeyLe.
  destruct (Z.ltb_spec (Appointment.date x.2) (Appointment.date y.2));
    [by left|].
  destruct (Z.ltb_spec (Appointment.date y.2) (Appointment.date x.2));
    [by right|].
  assert (Appointment.date x.2 = Appointment.date y.2) as -> by lia.
  rewrite Z.eqb_refl. simpl.
  apply String.leb_total.
Qed.

Lemma truthy_filter (status : option string) (a : Appointment.t) :
  holds (truthy status) (String.eqb (statusName (Appointment.status a))) = true
  <-> statusSelected status a.
Proof.
  unfold truthy, statusSelected, holds. destruct status as [[|c s]|]; simpl;
    [done| |done].
  by rewrite String.eqb_eq.
Qed.

(** X22. The student's listing answers 200 with, without repetition and
    ordered by date and start time, exactly the appointments whose student
    is the caller; an absent or empty status parameter selects all of
    them, any other value those stored with exactly that status. *)
Theorem myAppointments_result
    (db : Db) (user : nat) (status : option string) :
  replyCode (myAppointments user status db) = 200
  /\ NoDup (replyData (myAppointments user status db))
  /\ Sorted AppointmentKeyLe (replyData (myAppointments user status db))
  /\ forall i a, (i, a) ∈ replyData (myAppointments user status db) <->
       appointments db !! i = Some a
       /\ Appointment.student a = user
       /\ statusSelected status a.
Proof.
  split; [done|]. unfold myAppointments. simpl.
  split; [apply sortAppointments_NoDup|].
  split; [apply (Sorted_merge_sort AppointmentKeyLe)|].
  intros i a. rewrite sortAppointments_spec. simpl.
  apply and_iff_compat_l. rewrite <- truthy_filter.
  unfold satisfiesAppointment.
  destruct (truthy status) as [s|]; simpl;
    rewrite ?andb_true_r, ?andb_true_iff, Nat.eqb_eq; tauto.
Qed.

(** X23. The professor's listing, for a [date] parameter that is absent
    or parses, answers 200 with, without repetition and ordered by date
    and start time, exactly the appointments whose professor is the
    caller, filtered by status as in the student's listing and by the
    date when one is supplied. For a [date] that [new Date] does not
    parse the query rejects and the answer is 500 "Error fetching
    appointments". The database is not changed. *)
Theorem professorAppointments_result
    (db : Db) (user : nat) (status : option string) (date : option Z)
    (raw : string) :
  (exists docs,
     respond (professorAppointments user status (dateParam date)) db
     = (Some (okAppointments docs), db)
     /\ NoDup docs
     /\ Sorted AppointmentKeyLe docs
     /\ forall i a,
          (i, a) ∈ docs <->
          appointments db !! i = Some a
          /\ Appointment.professor a = user
          /\ statusSelected status a
          /\ match date with
             | Some d => Appointment.date a = d
             | None => True
             end)
  /\ respond (professorAppointments user status (InvalidDate raw)) db
     = (Some (failure 500 "Error fetching appointments"), db).
Proof.
  split; [|reflexivity].
  set (query :=
    {| aq_id := None; aq_student := None; aq_professor := Some user;
       aq_status := truthy status;
       aq_date := date |}).
  exists (sortAppointments (selectAppointments query db)).
  split; [|split; [|split]].
  - unfold respond, professorAppointments. subst query.
    by destruct (truthy status), date.
  - apply sortAppointments_NoDup.
  - apply (Sorted_merge_sort AppointmentKeyLe).
  - intros i a. rewrite sortAppointments_spec. simpl.
    apply and_iff_compat_l. rewrite <- truthy_filter.
    unfold satisfiesAppointment. subst query.
    destruct (truthy status) as [s|], date as [d|]; simpl;
      rewrite ?andb_true_r, ?andb_true_iff, Nat.eqb_eq, ?Z.eqb_eq; tauto.
Qed.

Section GetAppointment.
Variables (db : Db) (user : nat) (role : Role) (id : nat).

Let query : AppointmentQuery :=
match role with
| student =>
    {| aq_id := Some id; aq_student := Some user; aq_professor := None;
       aq_status := None; aq_date := None |}
| professor =>
    {| aq_id := Some id; aq_student := None; aq_professor := Some user;
       aq_status := None; aq_date := None |}
end.

Lemma satisfies_visibility (k : nat) (b : Appointment.t) :
satisfiesAppointment query (k, b) = true <-> k = id /\ visibleTo user role b.
Proof using Type.
subst query. unfold satisfiesAppointment, visibleTo, holds.
destruct role; simpl;
  rewrite ?andb_true_r, ?andb_true_iff, !Nat.eqb_eq; tauto.
Qed.

Lemma getAppointment_query :
respond (getAppointment user role (CastId id)) db
= (Some match head (selectAppointments query db) with
        | Some (k, b) => appointmentFound k b
        | None => appointmentNotFound
        end, db).
Proof using Type.
unfold respond, getAppointment. subst query. cbn.
by destruct role; cbn; destruct (head _) as [[k b]|].
Qed.

Lemma getAppointment_sees (a : Appointment.t) :
appointments db !! id = Some a ->
visibleTo user role a ->
respond (getAppointment user role (CastId id)) db
= (Some (appointmentFound id a), db).
Proof using Type.
intros stored Hvis. rewrite getAppointment_query.
destruct (head (selectAppointments query db)) as [[k b]|] eqn:E.
- apply head_Some_elem, selectAppointments_spec in E as [Hk Hs].
  apply satisfies_visibility in Hs as [-> _]. simpl in Hk. congruence.
- assert ((id, a) ∈ selectAppointments query db) as Hin.
  { apply selectAppointments_spec. split; [done|].
    by apply satisfies_visibility. }
  destruct (selectAppointments query db); [by apply elem_of_nil in Hin|done].
Qed.

Lemma getAppointment_hides (a : Appointment.t) :
appointments db !! id = Some a ->
~ visibleTo user role a ->
respond (getAppointment user role (CastId id)) db
= (Some appointmentNotFound, db).
Proof using Type.
intros stored Hhidden. rewrite getAppointment_query.
destruct (head (selectAppointments query db)) as [[k b]|] eqn:E; [|done].
apply head_Some_elem, selectAppointments_spec in E as [Hk Hs].
apply satisfies_visibility in Hs as [-> Hvis]. simpl in Hk.
rewrite stored in Hk. injection Hk as <-. done.
Qed.

Lemma getAppointment_missing :
appointments db !! id = None ->
respond (getAppointment user role (CastId id)) db
= (Some appointmentNotFound, db).
Proof using Type.
intros Hnone. rewrite getAppointment_query.
destruct (head _) as [[k b]|] eqn:E; [|done].
apply head_Some_elem, selectAppointments_spec in E as [Hk Hs].
apply satisfies_visibility in Hs as [-> _]. simpl in Hk.
congruence.
Qed.
End GetAppointment.

(** X24. GetAppointment on a well-formed id answers 200 with the appointment
    exactly when it is stored and the caller is its student (for a
    student) or its professor (for a professor); for anyone else the
    answer is the same 404 "Appointment not found" as for an id that is
    not stored. On an id that cannot be cast to an ObjectId the query
    rejects and the answer is 500 "Error fetching appointment". The
    database is not changed. *)
Theorem getAppointment_visibility
    (db : Db) (user : nat) (role : Role) (id : nat) (raw : string) :
  match appointments db !! id with
  | Some a =>
      (visibleTo user role a ->
         respond (getAppointment user role (CastId id)) db
         = (Some {| statusCode := 200; success := true; text := None;
                    data := AppointmentDoc id a |}, db))
      /\ (~ visibleTo user role a ->
            respond (getAppointment user role (CastId id)) db
            = (Some appointmentNotFound, db))
  | None =>
      respond (getAppointment user role (CastId id)) db
      = (Some appointmentNotFound, db)
  end
  /\ respond (getAppointment user role (NoCast raw)) db
     = (Some (failure 500 "Error fetching appointment"), db).
Proof.
  split; [|reflexivity].
  destruct (appointments db !! id) as [a|] eqn:Hid.
  - split.
    + intros Hvis. by apply getAppointment_sees.
    + by apply getAppointment_hides.
  - by apply getAppointment_missing.
Qed.

#[global] Instance NameLe_total : Total NameLe.
Proof. intros x y. unfold NameLe. apply String.leb_total. Qed.

(** X25. The list of professors answers 200 with, ordered by name, exactly
    the users whose role is professor, each reduced to name, email and
    department. *)
Theorem professors_result (db : Db) :
  replyCode (professors db) = 200
  /\ Sorted NameLe (replyData (professors db))
  /\ forall k p, (k, p) ∈ replyData (professors db) <->
       exists u, users db !! k = Some u /\ role u = professor
                 /\ p = selectProfile u.
Proof.
  split; [done|]. unfold professors. simpl.
  split; [apply (Sorted_merge_sort NameLe)|].
  intros k p. rewrite merge_sort_Permutation, list_elem_of_fmap. split.
  - intros ([k' u] & [= -> ->] & Hin).
    rewrite list_elem_of_In, filter_In, <- list_elem_of_In in Hin.
    destruct Hin as [Hin Hrole]. apply elem_of_map_to_list in Hin.
    exists u. split; [done|]. split; [|done].
    unfold hasRole in Hrole. simpl in Hrole. by destruct (role u).
  - intros (u & Hk & Hrole & ->). exists (k, u). split; [done|].
    rewrite list_elem_of_In, filter_In, <- list_elem_of_In. split.
    + by apply elem_of_map_to_list.
    + unfold hasRole. simpl. by rewrite Hrole.
Qed.

(* ===================================================================== *)
(** ** The order of a listing *)
(* ===================================================================== *)





(** Without the leading zero the string order is not the order of the
    times. *)
Example one_digit_hour_sorts_late :
  Regex.test timePattern "9:00" = true
  /\ chronologicallyAfter "10:00" "9:00" = true
  /\ String.leb "10:00" "9:00" = true
  /\ String.leb "9:00" "10:00" = false.
Proof. repeat split; reflexivity. Qed.

(* ===================================================================== *)
(** ** Creating, then listing and creating again *)
(* ===================================================================== *)

(** X27. A slot just created by a professor, dated at or after the clock, is
    on that professor's list of available slots. *)
Theorem created_slot_is_listed
    (db : Db) (user : nat) (date : Z) (startTime endTime : string) (now : Z) :
  let body := {| CreateSlot.date := IsoDate date;
                 CreateSlot.startTime := startTime;
                 CreateSlot.endTime := endTime |} in
  CreateSlot.validationResult body = [] ->
  chronologicallyAfter endTime startTime = true ->
  (forall k a, availabilities db !! k = Some a ->
               ~ sameSlot user date startTime endTime a) ->
  isProfessor db user ->
  (now <= date)%Z ->
  let db1 := (respond (createSlot user body) db).2 in
  exists id docs,
    availabilities db1 !! id = Some (newSlot user date startTime endTime)
    /\ respond (listAvailableSlotsForProfessor (CastId user) NoDate now) db1
       = (Some (okList docs), db1)
    /\ (id, newSlot user date startTime endTime) ∈ docs.
Proof.
  intros body Hv Hord Hfresh Hprof Hnow db1. subst db1 body.
  destruct (createSlot_persists db user date startTime endTime Hv Hfresh Hord)
    as [_ ->]. simpl.
  match goal with |- context [respond _ ?d] => set (db1 := d) end.
  destruct (listing_member db1 user None now Hprof) as (docs & Hrun & Hmem).
  exists (fresh (dom (availabilities db))), docs.
  assert (Hid : availabilities db1 !! fresh (dom (availabilities db))
                = Some (newSlot user date startTime endTime))
    by apply lookup_insert_eq.
  split; [done|]. split; [done|]. apply Hmem. split; [done|]. by repeat split.
Qed.

(** X28. Creating the same slot twice: after a successful CreateSlot the
    same request is answered 400 "This time slot already exists" and
    changes nothing. *)
Theorem create_twice
    (db : Db) (user : nat) (date : Z) (startTime endTime : string) :
  let body := {| CreateSlot.date := IsoDate date;
                 CreateSlot.startTime := startTime;
                 CreateSlot.endTime := endTime |} in
  CreateSlot.validationResult body = [] ->
  chronologicallyAfter endTime startTime = true ->
  (forall k a, availabilities db !! k = Some a ->
               ~ sameSlot user date startTime endTime a) ->
  let db1 := (respond (createSlot user body) db).2 in
  db1 <> db
  /\ respond (createSlot user body) db1
     = (Some (failure 400 "This time slot already exists"), db1).
Proof.
  intros body Hv Hord Hfresh db1. subst db1 body.
  destruct (createSlot_persists db user date startTime endTime Hv Hfresh Hord)
    as [Hnew ->]. simpl. split.
  - intros Heq. apply (f_equal availabilities) in Heq. simpl in Heq.
    pose proof (lookup_insert_eq (availabilities db)
                  (fresh (dom (availabilities db)))
                  (newSlot user date startTime endTime)) as Hk.
    rewrite Heq in Hk. congruence.
  - eapply (createSlot_duplicate _ user date startTime endTime Hv).
    + apply lookup_insert_eq.
    + by repeat split.
Qed.

(* ===================================================================== *)
(** ** Bookings as their participants see them *)
(* ===================================================================== *)

(** X29. After a successful booking the new appointment is on the student's
    list of confirmed appointments and on the professor's list, both can
    fetch it by id, and a different student fetching it by id gets 404. *)
Theorem booking_is_visible_to_participants
    (db : Db) (user id : nat) (body : BookSlot.t) (now : Z)
    (slot : Availability.t) :
  BookSlot.validationResult body = [] ->
  BookSlot.availabilityId body = MongoId id ->
  openSlot db id slot now ->
  let db1 := (respond (bookSlot user body now) db).2 in
  exists i a,
    appointments db1 !! i = Some a
    /\ (i, a) ∈ replyData (myAppointments user (Some "confirmed") db1)
    /\ (exists docs,
          respond (professorAppointments (Availability.professor slot)
                     None NoDate) db1
          = (Some (okAppointments docs), db1)
          /\ (i, a) ∈ docs)
    /\ respond (getAppointment user student (CastId i)) db1
       = (Some (appointmentFound i a), db1)
    /\ respond (getAppointment (Availability.professor slot) professor
                  (CastId i)) db1
       = (Some (appointmentFound i a), db1)
    /\ forall other, other <> user ->
         respond (getAppointment other student (CastId i)) db1
         = (Some appointmentNotFound, db1).
Proof.
  intros Hv Hid Hopen db1. subst db1.
  rewrite (bookSlot_succeeds db user id body now slot Hv Hid Hopen). simpl.
  set (db1 := afterBooking db user id slot body).
  set (i := fresh (dom (appointments db))).
  set (a := booking user id slot body).
  assert (Hi : appointments db1 !! i = Some a) by apply lookup_insert_eq.
  exists i, a. split; [done|].
  split; [|split].
  - unfold myAppointments. simpl. apply sortAppointments_spec. split; [done|].
    unfold satisfiesAppointment. simpl. by rewrite Nat.eqb_refl.
  - eexists. split; [reflexivity|]. apply sortAppointments_spec.
    split; [done|]. unfold satisfiesAppointment. simpl.
    by rewrite Nat.eqb_refl.
  - split; [by apply (getAppointment_sees db1 user student i a Hi)|].
    split; [by apply (getAppointment_sees db1 (Availability.professor slot)
                        professor i a Hi)|].
    intros other Hother.
    apply (getAppointment_hides db1 other student i a Hi). simpl. congruence.
Qed.

(** X30. After a cancellation the appointment is no longer on its student's
    list filtered by status "confirmed"; it is on the list filtered by
    "cancelled" and on the unfiltered list, with status cancelled. *)
Theorem cancelled_appointment_listing
    (db : Db) (user id : nat) (a : Appointment.t) :
  appointments db !! id = Some a ->
  Appointment.professor a = user ->
  Appointment.status a <> cancelled ->
  let db1 := (respond (cancelAppointment user (CastId id)) db).2 in
  (forall b, (id, b) ∉ replyData
       (myAppointments (Appointment.student a) (Some "confirmed") db1))
  /\ (id, Appointment.assign cancelled a) ∈ replyData
       (myAppointments (Appointment.student a) (Some "cancelled") db1)
  /\ (id, Appointment.assign cancelled a) ∈ replyData
       (myAppointments (Appointment.student a) None db1).
Proof.
  intros Hid Hown Hlive db1.
  assert (Hstored : appointments db1 !! id
                    = Some (Appointment.assign cancelled a)).
  { subst db1.
    destruct (availabilities db !! Appointment.availability a) as [slot|] eqn:E.
    - rewrite (cancel_frees_slot db user id a Hid Hown slot Hlive E).
      apply lookup_insert_eq.
    - rewrite (cancel_missing_slot db user id a Hid Hown Hlive E).
      apply lookup_insert_eq. }
  split; [|split].
  - intros b Hin. unfold myAppointments in Hin. simpl in Hin.
    apply sortAppointments_spec in Hin as [Hb Hsat]. simpl in Hb.
    rewrite Hstored in Hb. injection Hb as <-.
    unfold satisfiesAppointment in Hsat. simpl in Hsat.
    by rewrite andb_false_r in Hsat.
  - unfold myAppointments. simpl. apply sortAppointments_spec. split; [done|].
    unfold satisfiesAppointment. simpl. by rewrite Nat.eqb_refl.
  - unfold myAppointments. simpl. apply sortAppointments_spec. split; [done|].
    unfold satisfiesAppointment. simpl. by rewrite Nat.eqb_refl.
Qed.

Lemma campus_professor : isProfessor campus 1.
Proof. exists drGrey. split; vm_compute; reflexivity. Qed.

Lemma campus_open : openSlot campus 0 morning dayBefore.
Proof.
  split; [vm_compute; reflexivity|]. split; [reflexivity|].
  split; [vm_compute; discriminate|]. exists drGrey. vm_compute. reflexivity.
Qed.

Lemma campus_no_afternoon (k : nat) (a : Availability.t) :
  availabilities campus !! k = Some a -> ~ sameSlot 1 oct4 "14:00" "15:00" a.
Proof.
  intros Hk (_ & _ & Hs & _). apply campus_slots in Hk as [_ ->]. discriminate.
Qed.

Lemma faculty_professors : isProfessor faculty 1 /\ isProfessor faculty 4.
Proof.
  split; [exists drGrey|exists drYang]; split; vm_compute; reflexivity.
Qed.

Lemma faculty_slots (k : nat) (a : Availability.t) :
  availabilities faculty !! k = Some a -> k = 0 /\ a = takenSlot.
Proof.
  assert (availabilities faculty = {[0 := takenSlot]}) as ->
    by (vm_compute; reflexivity).
  intros H. by apply lookup_singleton_Some in H as [<- <-].
Qed.

Lemma faculty_appointment (a : Appointment.t) :
  appointments faculty !! 0 = Some a -> Appointment.professor a <> 4.
Proof.
  assert (appointments faculty !! 0 = Some aliceBooking) as ->
    by (vm_compute; reflexivity).
  intros [= <-]. discriminate.
Qed.

Lemma deleteSlot_foreign_or_missing_witness :
  isProfessor faculty 4
  /\ availabilities faculty !! 0 = Some takenSlot
  /\ availabilities faculty !! 7 = None
  /\ respond (deleteSlot 4 (CastId 0)) faculty = (Some slotNotFound, faculty)
  /\ respond (deleteSlot 1 (CastId 7)) faculty = (Some slotNotFound, faculty).
Proof.
  split; [apply faculty_professors|].
  split; [vm_compute; reflexivity|]. split; [vm_compute; reflexivity|].
  split.
  - apply (deleteSlot_foreign_or_missing faculty 4 0 ""). intros slot Hslot.
    apply faculty_slots in Hslot as [_ ->]. discriminate.
  - apply (deleteSlot_foreign_or_missing faculty 1 7 ""). intros slot Hslot.
    apply faculty_slots in Hslot as [? _]. discriminate.
Defined.

Lemma deleteSlot_owned_witness :
  (exists db', respond (deleteSlot 1 (CastId 0)) campus = (Some deleted, db')
               /\ availabilities db' !! 0 = None)
  /\ respond (deleteSlot 1 (CastId 0)) bookedCampus
     = (Some (failure 400
          "Cannot delete booked slot. Cancel the appointment first."),
        bookedCampus).
Proof.
  split.
  - destruct (deleteSlot_owned campus 1 0 morning) as [_ H];
      try (vm_compute; reflexivity).
    destruct (H eq_refl) as (db' & Hrun & Hgone & _). by exists db'.
  - apply (deleteSlot_owned bookedCampus 1 0 takenSlot);
      vm_compute; reflexivity.
Defined.

Lemma cancel_then_delete_witness :
  exists db2,
    respond (deleteSlot 1 (CastId 0)) (respond (cancelAppointment 1 (CastId 0)) bookedCampus).2
    = (Some deleted, db2)
    /\ availabilities db2 !! 0 = None.
Proof.
  apply (cancel_then_delete bookedCampus 1 0 aliceBooking takenSlot);
    try (vm_compute; reflexivity). discriminate.
Defined.

Lemma cancel_twice_witness :
  respond (cancelAppointment 1 (CastId 0)) (respond (cancelAppointment 1 (CastId 0)) bookedCampus).2
  = (Some alreadyCancelled, (respond (cancelAppointment 1 (CastId 0)) bookedCampus).2).
Proof.
  apply (cancel_twice bookedCampus 1 0 aliceBooking);
    try (vm_compute; reflexivity). discriminate.
Defined.

Lemma bookSlot_rejects_invalid_witness :
  (exists errors,
     respond (bookSlot 2 {| BookSlot.availabilityId := NotMongoId "slot-0";
                            BookSlot.notes := None |} dayBefore) campus
     = (Some (validationFailure errors), campus)
     /\ "Please provide a valid availability ID" ∈ errors)
  /\ (exists errors,
        respond (bookSlot 2 {| BookSlot.availabilityId := MongoId 0;
                               BookSlot.notes := Some longNotes |} dayBefore)
          campus
        = (Some (validationFailure errors), campus)
        /\ "Notes cannot exceed 500 characters" ∈ errors).
Proof.
  split.
  - destruct (bookSlot_rejects_invalid campus 2
                {| BookSlot.availabilityId := NotMongoId "slot-0";
                   BookSlot.notes := None |} dayBefore)
      as (errors & Hrun & _ & Hid & _); [left; reflexivity|].
    exists errors. split; [exact Hrun|]. apply Hid. reflexivity.
  - destruct (bookSlot_rejects_invalid campus 2
                {| BookSlot.availabilityId := MongoId 0;
                   BookSlot.notes := Some longNotes |} dayBefore)
      as (errors & Hrun & _ & _ & Hnotes);
      [right; exists longNotes; split; reflexivity|].
    exists errors. split; [exact Hrun|]. apply Hnotes.
    exists longNotes. split; reflexivity.
Defined.

Lemma bookSlot_snapshot_witness :
  exists i a db',
    respond (bookSlot 2 (request 0) dayBefore) campus = (Some (booked i a), db')
    /\ Appointment.student a = 2
    /\ Appointment.startTime a = "10:00"
    /\ Appointment.notes a = "Discuss final project requirements"
    /\ Appointment.status a = confirmed
    /\ exists slot',
         availabilities db' !! 0 = Some slot'
         /\ Availability.isBooked slot' = true
         /\ Availability.bookedBy slot' = Some 2.
Proof.
  destruct (bookSlot_snapshot campus 2 0 (request 0) dayBefore morning)
    as (i & a & slot' & db' & Hrun & _ & _ & Hst & _ & _ & _ & Hstart & _
        & Hnotes & Hstatus & Hslot & Hflag & Hby & _);
    try (vm_compute; reflexivity); [apply campus_open|].
  exists i, a, db'. split; [exact Hrun|]. split; [exact Hst|].
  split; [exact Hstart|]. split; [exact Hnotes|]. split; [exact Hstatus|].
  exists slot'. split; [exact Hslot|]. split; [exact Hflag|exact Hby].
Defined.

Lemma booking_hides_slot_witness :
  (exists docs,
     respond (listAvailableSlotsForProfessor (CastId 1) NoDate dayBefore) campus
     = (Some (okList docs), campus) /\ (0, morning) ∈ docs)
  /\ (exists docs1,
        respond (listAvailableSlotsForProfessor (CastId 1) NoDate dayBefore) bookedCampus
        = (Some (okList docs1), bookedCampus)
        /\ forall a, (0, a) ∉ docs1).
Proof.
  apply (booking_hides_slot campus 2 0 (request 0) dayBefore morning);
    try (vm_compute; reflexivity); [apply campus_open|apply campus_professor].
Defined.

Lemma cancelling_reopens_slot_witness :
  exists docs,
    respond (listAvailableSlotsForProfessor (CastId 1) NoDate dayBefore)
      (respond (cancelAppointment 1 (CastId 0)) bookedCampus).2
    = (Some (okList docs), (respond (cancelAppointment 1 (CastId 0)) bookedCampus).2)
    /\ (0, morning) ∈ docs.
Proof.
  apply (cancelling_reopens_slot bookedCampus 1 0 aliceBooking takenSlot
           dayBefore);
    try (vm_compute; reflexivity); [discriminate| |vm_compute; discriminate].
  exists drGrey. split; vm_compute; reflexivity.
Defined.


Lemma cancel_foreign_or_missing_witness :
  isProfessor faculty 4
  /\ appointments faculty !! 0 = Some aliceBooking
  /\ respond (cancelAppointment 4 (CastId 0)) faculty
     = (Some appointmentNotFound, faculty).
Proof.
  split; [apply faculty_professors|]. split; [vm_compute; reflexivity|].
  apply (cancel_foreign_or_missing faculty 4 0 ""), faculty_appointment.
Defined.

Lemma updateStatus_foreign_or_missing_witness :
  isProfessor faculty 4
  /\ appointments faculty !! 0 = Some aliceBooking
  /\ respond (updateAppointmentStatus 4 (CastId 0) "completed") faculty
     = (Some appointmentNotFound, faculty).
Proof.
  split; [apply faculty_professors|]. split; [vm_compute; reflexivity|].
  apply (updateStatus_foreign_or_missing faculty 4 0 "" completed),
    faculty_appointment.
Defined.

Lemma updateStatus_rejects_unknown_status_witness :
  respond (updateAppointmentStatus 1 (CastId 0) "done") bookedCampus
  = (Some (validationFailure ["Invalid status"]), bookedCampus).
Proof.
  apply (updateStatus_rejects_unknown_status bookedCampus 1 (CastId 0) "done").
  intros st. destruct st; discriminate.
Defined.

Lemma updateStatus_changes_status_only_witness :
  exists a' db',
    respond (updateAppointmentStatus 1 (CastId 0) "completed") bookedCampus
    = (Some (statusUpdated 0 a'), db')
    /\ Appointment.status a' = completed
    /\ availabilities db' = availabilities bookedCampus.
Proof.
  destruct (updateStatus_changes_status_only bookedCampus 1 0 aliceBooking
              completed)
    as (a' & db' & Hrun & _ & Hst & _ & _ & Hslots & _);
    try (vm_compute; reflexivity); [discriminate|].
  by exists a', db'.
Defined.

Lemma slot_leaves_only_by_delete_witness :
  availabilities (serve campus (DeleteSlotRequest 1 (CastId 0))) !! 0 = None
  /\ exists s', availabilities (serve campus (DeleteSlotRequest 2 (CastId 0))) !! 0
                = Some s' /\ sameOffer morning s'.
Proof.
  split; [vm_compute; reflexivity|].
  destruct (slot_leaves_only_by_delete campus (DeleteSlotRequest 2 (CastId 0)) 0 morning)
    as [H|(_ & H & _)]; [vm_compute; reflexivity|done|discriminate].
Defined.

Lemma campus_unique : uniqueSlots campus.
Proof.
  intros k1 k2 s1 s2 H1 H2 _.
  apply campus_slots in H1 as [-> _]. by apply campus_slots in H2 as [-> _].
Qed.

Lemma unique_slots_preserved_witness : uniqueSlots (serveAll campus e2e).
Proof. apply (unique_slots_preserved campus e2e), campus_unique. Defined.

Lemma campus_wellTimed : wellTimed campus.
Proof.
  intros k s Hk. apply campus_slots in Hk as [_ ->]. by split.
Qed.

Lemma stored_times_well_formed_witness : wellTimed (serveAll campus e2e).
Proof. apply (stored_times_well_formed campus e2e), campus_wellTimed. Defined.

Lemma consistent_without_status_updates_witness :
  consistent (serveAll campus e2e).
Proof.
  apply (consistent_without_status_updates campus e2e);
    [apply campus_invariant|reflexivity].
Defined.


Lemma created_slot_is_listed_witness :
  exists id docs,
    availabilities (respond (createSlot 1 afternoon) campus).2 !! id
    = Some (newSlot 1 oct4 "14:00" "15:00")
    /\ respond (listAvailableSlotsForProfessor (CastId 1) NoDate dayBefore)
         (respond (createSlot 1 afternoon) campus).2
       = (Some (okList docs), (respond (createSlot 1 afternoon) campus).2)
    /\ (id, newSlot 1 oct4 "14:00" "15:00") ∈ docs.
Proof.
  apply (created_slot_is_listed campus 1 oct4 "14:00" "15:00" dayBefore);
    try (vm_compute; reflexivity);
    [apply campus_no_afternoon|apply campus_professor|vm_compute; discriminate].
Defined.

Lemma create_twice_witness :
  respond (createSlot 1 afternoon) (respond (createSlot 1 afternoon) campus).2
  = (Some (failure 400 "This time slot already exists"),
     (respond (createSlot 1 afternoon) campus).2).
Proof.
  apply (create_twice campus 1 oct4 "14:00" "15:00");
    try (vm_compute; reflexivity). apply campus_no_afternoon.
Defined.

Lemma booking_is_visible_to_participants_witness :
  exists i a,
    appointments bookedCampus !! i = Some a
    /\ (i, a) ∈ replyData (myAppointments 2 (Some "confirmed") bookedCampus)
    /\ respond (getAppointment 1 professor (CastId i)) bookedCampus
       = (Some (appointmentFound i a), bookedCampus)
    /\ respond (getAppointment 3 student (CastId i)) bookedCampus
       = (Some appointmentNotFound, bookedCampus).
Proof.
  destruct (booking_is_visible_to_participants campus 2 0 (request 0) dayBefore
              morning)
    as (i & a & Hi & Hmine & _ & _ & Hprof & Hother);
    try (vm_compute; reflexivity); [apply campus_open|].
  exists i, a. split; [exact Hi|]. split; [exact Hmine|].
  split; [exact Hprof|]. apply Hother. discriminate.
Defined.

Lemma cancelled_appointment_listing_witness :
  (0, Appointment.assign cancelled aliceBooking)
    ∈ replyData (myAppointments 2 None
                   (respond (cancelAppointment 1 (CastId 0)) bookedCampus).2).
Proof.
  apply (cancelled_appointment_listing bookedCampus 1 0 aliceBooking);
    try (vm_compute; reflexivity). discriminate.
Defined.
